(** * Cosine-similarity kernels of [cython_recommendations.pyx]

    A shallow embedding of the three routines of the module
    ([compute_user_similarity_matrix], [compute_product_similarity],
    [compute_dot_product_batch]) and the properties of their specification.

    The routines are written over an abstract element type carrying the
    operations the source applies to [DTYPE_t] values.  Two instances are
    given: IEEE binary64 (the type the source runs on, executable), and the
    real numbers (the exact arithmetic in which cosine similarity is
    specified).  Module [Cdef] holds the routines with their shape entries
    in 32-bit [int] variables, as the source declares them; what a call
    returns is stated about those. *)

From stdpp Require Import base list.
From Stdlib Require Import ZArith Floats Reals Lra Lia.

(** ** Outcomes of a call

    Buffer indexing runs with [boundscheck(False)]: an index outside the
    buffer is not trapped and the call has no defined result, which the model
    records as [OutOfBounds].  The module keeps Cython's default
    [cdivision=False], so a C division whose divisor compares equal to zero
    raises [ZeroDivisionError].  [np.zeros] raises [ValueError] when asked
    for a negative dimension. *)

Inductive result (A : Type) : Type :=
  | Returned (a : A)
  | ZeroDivisionError
  | ValueError
  | OutOfBounds.
Arguments Returned {A} a.
Arguments ZeroDivisionError {A}.
Arguments ValueError {A}.
Arguments OutOfBounds {A}.

#[global] Instance result_ret : MRet result := fun _ a => Returned a.
#[global] Instance result_bind : MBind result := fun _ _ k r =>
  match r with
  | Returned a => k a
  | ZeroDivisionError => ZeroDivisionError
  | ValueError => ValueError
  | OutOfBounds => OutOfBounds
  end.

(** ** Element arithmetic: the operations used on [DTYPE_t] *)

Class Arith (F : Type) : Type := {
  fzero : F;                 (* the literal 0.0 *)
  fadd : F -> F -> F;        (* + *)
  fmul : F -> F -> F;        (* * *)
  fdiv : F -> F -> F;        (* the C quotient, divisor already checked *)
  fsqrt : F -> F;            (* libc sqrt *)
  feqb : F -> F -> bool;     (* == *)
  fgtb : F -> F -> bool      (* > *)
}.

(** IEEE 754 binary64, round to nearest even, every operation rounded on
    its own: [np.float64_t]. *)
#[global] Instance float64 : Arith float := {
  fzero := 0%float;
  fadd := PrimFloat.add;
  fmul := PrimFloat.mul;
  fdiv := PrimFloat.div;
  fsqrt := PrimFloat.sqrt;
  feqb := PrimFloat.eqb;
  fgtb := fun x y => PrimFloat.ltb y x
}.

(** Exact real arithmetic. *)
#[global] Instance exact : Arith R := {
  fzero := 0%R;
  fadd := Rplus;
  fmul := Rmult;
  fdiv := Rdiv;
  fsqrt := R_sqrt.sqrt;
  feqb := fun x y => if Req_dec_T x y then true else false;
  fgtb := fun x y => if Rlt_dec y x then true else false
}.

(** ** Arrays

    The arguments are typed buffers ([np.ndarray[DTYPE_t, ndim=1]] and
    [ndim=2]), so a call only ever receives rectangular arrays of doubles.
    The shape of an array is a pair of natural numbers.  The source stores
    the shape entries it reads in C [int] variables; the routines are given
    twice below: in [Kernels] run on the shape entries themselves, and in
    [Cdef] with the entries narrowed to 32 bits as the [cdef int]
    declarations do.  The two coincide on operands with fewer than 2^31 rows
    and columns. *)

(** A one-dimensional buffer; [shape[0]] is its length. *)
Abbreviation ndarray1 := list (only parsing).

Section Kernels.
Context {F : Type} `{Arith F}.

(** A two-dimensional buffer of shape [(length rows, ncols)], row by row. *)
Record ndarray2 : Type := Ndarray2 {
  rows : list (list F);
  ncols : nat
}.

Definition shape0 (m : ndarray2) : nat := length (rows m).
Definition shape1 (m : ndarray2) : nat := ncols m.

(** Every row of an array has [shape[1]] entries. *)
Definition wf (m : ndarray2) : bool :=
  forallb (fun r => length r =? ncols m) (rows m).

(** [v[j]] *)
Definition get1 (v : ndarray1 F) (j : nat) : result F :=
  match v !! j with
  | Some x => Returned x
  | None => OutOfBounds
  end.

(** [m[i, j]] *)
Definition get2 (m : ndarray2) (i j : nat) : result F :=
  match rows m !! i with
  | Some r => get1 r j
  | None => OutOfBounds
  end.

(** [m[i, j] = x], for an index inside the buffer *)
Definition set2 (m : ndarray2) (i j : nat) (x : F) : ndarray2 :=
  match rows m !! i with
  | Some r => Ndarray2 (<[i := <[j := x]> r]> (rows m)) (ncols m)
  | None => m
  end.

(** [np.zeros(n)] and [np.zeros((n, k))] *)
Definition zeros1 (n : nat) : ndarray1 F := replicate n fzero.
Definition zeros2 (n k : nat) : ndarray2 := Ndarray2 (replicate n (replicate k fzero)) k.

(** [a / b] on C doubles under [cdivision=False] *)
Definition checked_div (a b : F) : result F :=
  if feqb b fzero then ZeroDivisionError else Returned (fdiv a b).

(** ** Loops: [for i in range(n): body], threading the variables it assigns *)

Fixpoint for_each {S : Type} (idxs : list nat) (body : nat -> S -> result S) (s : S)
  : result S :=
  match idxs with
  | [] => Returned s
  | i :: rest => s' ← body i s; for_each rest body s'
  end.

Definition for_range {S : Type} (n : nat) (body : nat -> S -> result S) (s : S)
  : result S :=
  for_each (seq 0 n) body s.

(** ** The routines, run on the shape entries themselves

    Each definition follows its source function statement by statement; a
    buffer read is one [get1] or [get2], in the order the expression reads.
    The accumulators [norm_other_sq] and [norm_liked_sq], which the source
    leaves without a [cdef], hold doubles like the declared ones.  Here
    [num_users], [num_products] and the like are the shape entries as
    natural numbers; [Cdef] below narrows them to C [int]. *)

Definition compute_user_similarity_matrix
    (user_product_matrix : ndarray2) (user_vector : ndarray1 F) : result (ndarray1 F) :=
  let num_users := shape0 user_product_matrix in
  let num_products := shape1 user_product_matrix in
  let similarities := zeros1 num_users in
  user_norm_sq ← for_range num_products (fun j user_norm_sq =>
      x ← get1 user_vector j;
      y ← get1 user_vector j;
      Returned (fadd user_norm_sq (fmul x y))) fzero;
  let norm_user := fsqrt user_norm_sq in
  if feqb norm_user fzero then Returned similarities
  else
    for_range num_users (fun i similarities =>
      '(dot_product, norm_other_sq) ← for_range num_products (fun j '(dot_product, norm_other_sq) =>
          a ← get1 user_vector j;
          b ← get2 user_product_matrix i j;
          let dot_product := fadd dot_product (fmul a b) in
          c ← get2 user_product_matrix i j;
          d ← get2 user_product_matrix i j;
          Returned (dot_product, fadd norm_other_sq (fmul c d))) (fzero, fzero);
      let norm_other := fsqrt norm_other_sq in
      if fgtb norm_other fzero then
        similarity ← checked_div dot_product (fmul norm_user norm_other);
        Returned (<[i := similarity]> similarities)
      else Returned similarities) similarities.

Definition compute_product_similarity
    (liked_features product_features : ndarray2) : result (ndarray1 F) :=
  let num_liked := shape0 liked_features in
  let num_features := shape1 liked_features in
  let similarities := zeros1 num_liked in
  product_norm_sq ← for_range num_features (fun j product_norm_sq =>
      x ← get2 product_features 0 j;
      y ← get2 product_features 0 j;
      Returned (fadd product_norm_sq (fmul x y))) fzero;
  let norm_product := fsqrt product_norm_sq in
  if feqb norm_product fzero then Returned similarities
  else
    for_range num_liked (fun i similarities =>
      '(dot_product, norm_liked_sq) ← for_range num_features (fun j '(dot_product, norm_liked_sq) =>
          a ← get2 product_features 0 j;
          b ← get2 liked_features i j;
          let dot_product := fadd dot_product (fmul a b) in
          c ← get2 liked_features i j;
          d ← get2 liked_features i j;
          Returned (dot_product, fadd norm_liked_sq (fmul c d))) (fzero, fzero);
      let norm_liked := fsqrt norm_liked_sq in
      if fgtb norm_liked fzero then
        similarity ← checked_div dot_product (fmul norm_product norm_liked);
        Returned (<[i := similarity]> similarities)
      else Returned similarities) similarities.

Definition compute_dot_product_batch (matrix_a matrix_b : ndarray2) : result ndarray2 :=
  let n := shape0 matrix_a in
  let k := shape0 matrix_b in
  let m := shape1 matrix_a in
  let result := zeros2 n k in
  for_range n (fun i result =>
    for_range k (fun j result =>
      dot_product ← for_range m (fun idx dot_product =>
          a ← get2 matrix_a i idx;
          b ← get2 matrix_b j idx;
          Returned (fadd dot_product (fmul a b))) fzero;
      Returned (set2 result i j dot_product)) result) result.

End Kernels.

Arguments ndarray2 F : clear implicits.

(** ** The routines as compiled: shape entries in C [int] variables *)

(** [cdef int x = n]: the value a 32-bit two's complement [int] holds after
    being assigned the shape entry [n]. *)
Definition c_int (n : nat) : Z :=
  ((Z.of_nat n + 2 ^ 31) mod 2 ^ 32 - 2 ^ 31)%Z.

(** A shape entry that a C [int] holds unchanged. *)
Definition fits_c_int (n : nat) : bool := (Z.of_nat n <? 2 ^ 31)%Z.

(** Both shape entries of an array fit a C [int]. *)
Definition int_sized {F : Type} (m : ndarray2 F) : bool :=
  fits_c_int (length (rows m)) && fits_c_int (ncols m).

Module Cdef.
Section Routines.
Context {F : Type} `{Arith F}.

(** [np.zeros(n, dtype=DTYPE)] for a C [int] [n] *)
Definition np_zeros (n : Z) : result (ndarray1 F) :=
  if (n <? 0)%Z then ValueError else Returned (zeros1 (Z.to_nat n)).

(** [np.zeros((n, k), dtype=DTYPE)] for C [int]s [n] and [k] *)
Definition np_zeros2 (n k : Z) : result (ndarray2 F) :=
  if ((n <? 0) || (k <? 0))%Z then ValueError
  else Returned (zeros2 (Z.to_nat n) (Z.to_nat k)).

(** [for i in range(n)] for a C [int] [n]: no iteration when [n <= 0] *)
Definition c_range {S : Type} (n : Z) (body : nat -> S -> result S) (s : S)
  : result S :=
  for_range (Z.to_nat n) body s.

Definition compute_user_similarity_matrix
    (user_product_matrix : ndarray2 F) (user_vector : ndarray1 F)
  : result (ndarray1 F) :=
  let num_users := c_int (shape0 user_product_matrix) in
  let num_products := c_int (shape1 user_product_matrix) in
  similarities ← np_zeros num_users;
  user_norm_sq ← c_range num_products (fun j user_norm_sq =>
      x ← get1 user_vector j;
      y ← get1 user_vector j;
      Returned (fadd user_norm_sq (fmul x y))) fzero;
  let norm_user := fsqrt user_norm_sq in
  if feqb norm_user fzero then Returned similarities
  else
    c_range num_users (fun i similarities =>
      '(dot_product, norm_other_sq) ← c_range num_products (fun j '(dot_product, norm_other_sq) =>
          a ← get1 user_vector j;
          b ← get2 user_product_matrix i j;
          let dot_product := fadd dot_product (fmul a b) in
          c ← get2 user_product_matrix i j;
          d ← get2 user_product_matrix i j;
          Returned (dot_product, fadd norm_other_sq (fmul c d))) (fzero, fzero);
      let norm_other := fsqrt norm_other_sq in
      if fgtb norm_other fzero then
        similarity ← checked_div dot_product (fmul norm_user norm_other);
        Returned (<[i := similarity]> similarities)
      else Returned similarities) similarities.

Definition compute_product_similarity
    (liked_features product_features : ndarray2 F) : result (ndarray1 F) :=
  let num_liked := c_int (shape0 liked_features) in
  let num_features := c_int (shape1 liked_features) in
  similarities ← np_zeros num_liked;
  product_norm_sq ← c_range num_features (fun j product_norm_sq =>
      x ← get2 product_features 0 j;
      y ← get2 product_features 0 j;
      Returned (fadd product_norm_sq (fmul x y))) fzero;
  let norm_product := fsqrt product_norm_sq in
  if feqb norm_product fzero then Returned similarities
  else
    c_range num_liked (fun i similarities =>
      '(dot_product, norm_liked_sq) ← c_range num_features (fun j '(dot_product, norm_liked_sq) =>
          a ← get2 product_features 0 j;
          b ← get2 liked_features i j;
          let dot_product := fadd dot_product (fmul a b) in
          c ← get2 liked_features i j;
          d ← get2 liked_features i j;
          Returned (dot_product, fadd norm_liked_sq (fmul c d))) (fzero, fzero);
      let norm_liked := fsqrt norm_liked_sq in
      if fgtb norm_liked fzero then
        similarity ← checked_div dot_product (fmul norm_product norm_liked);
        Returned (<[i := similarity]> similarities)
      else Returned similarities) similarities.

Definition compute_dot_product_batch (matrix_a matrix_b : ndarray2 F)
  : result (ndarray2 F) :=
  let n := c_int (shape0 matrix_a) in
  let k := c_int (shape0 matrix_b) in
  let m := c_int (shape1 matrix_a) in
  result ← np_zeros2 n k;
  c_range n (fun i result =>
    c_range k (fun j result =>
      dot_product ← c_range m (fun idx dot_product =>
          a ← get2 matrix_a i idx;
          b ← get2 matrix_b j idx;
          Returned (fadd dot_product (fmul a b))) fzero;
      Returned (set2 result i j dot_product)) result) result.

End Routines.
End Cdef.

(** ** Reference reductions

    The sums the specification writes with a capital sigma, taken in the
    order the loops take them: index ascending, from a zero accumulator. *)

Section Reductions.
Context {F : Type} `{Arith F}.

(** [dot u v] is the sum of [u[j] * v[j]] over the common indices. *)
Definition dot (u v : list F) : F :=
  foldl (fun acc p => fadd acc (fmul p.1 p.2)) fzero (zip u v).

(** The Euclidean norm: the square root of the sum of squares. *)
Definition norm (u : list F) : F := fsqrt (dot u u).

(** Entry of a similarity vector for one matrix row, given the norm [nu] of
    the reference vector [v]: zero unless the row norm is positive. *)
Definition cosine_entry (nu : F) (v row : list F) : result F :=
  if fgtb (norm row) fzero
  then checked_div (dot v row) (fmul nu (norm row))
  else Returned fzero.

(** The same entry as a plain value, for when the division is known to go
    through. *)
Definition cosine (nu : F) (v row : list F) : F :=
  if fgtb (norm row) fzero
  then fdiv (dot v row) (fmul nu (norm row))
  else fzero.

(** Row 0 of the second argument of [compute_product_similarity], as the
    routine reads it. *)
Definition reference_row (product_features : ndarray2 F) : list F :=
  default [] (rows product_features !! 0).

(** The table of dot products of the rows of [matrix_a] with the leading
    [shape1 matrix_a] entries of the rows of [matrix_b]. *)
Definition dot_table (matrix_a matrix_b : ndarray2 F) : ndarray2 F :=
  Ndarray2
    ((fun ra => (fun rb => dot ra (take (shape1 matrix_a) rb)) <$> rows matrix_b)
       <$> rows matrix_a)
    (shape0 matrix_b).


End Reductions.

(** ** What the guards need from the arithmetic

    Four facts about zero, order and square roots.  Both instances satisfy
    them (shown below); [feqb x x] fails only for a binary64 NaN. *)

Class ArithLaws (F : Type) `{Arith F} : Prop := {
  fsqrt_zero : feqb (fsqrt fzero) fzero = true;
  fgtb_nonzero : forall x, fgtb x fzero = true -> feqb x fzero = false;
  fsqrt_positive : forall a,
    feqb (fsqrt a) fzero = false -> feqb (fsqrt a) (fsqrt a) = true ->
    fgtb (fsqrt a) fzero = true;
  fsqrt_mul_nonzero : forall a b,
    feqb (fsqrt a) fzero = false -> fgtb (fsqrt b) fzero = true ->
    feqb (fmul (fsqrt a) (fsqrt b)) fzero = false
}.

(** ** Sample binary64 operands *)

Module Examples.


(** A user table with a zero row, and a reference vector. *)
Definition users : ndarray2 float := Ndarray2 [[1; 2]; [0; 0]; [3; 4]]%float 2.
Definition reference : list float := [1; 3]%float.

(** A single-row and a two-row feature matrix with the same row 0. *)
Definition product_one : ndarray2 float := Ndarray2 [[1; 3]]%float 2.
Definition product_two : ndarray2 float := Ndarray2 [[1; 3]; [9; 9]]%float 2.

(** Operands whose sizes disagree. *)
Definition unit_matrix : ndarray2 float := Ndarray2 [[1]]%float 1.
Definition pair_row : ndarray2 float := Ndarray2 [[1; 2]]%float 2.

(** Finite values at the edges of the binary64 range: [2^600], whose square
    overflows, and [1.21875 * 2^-537], whose square rounds to the least
    subnormal [2^-1074]. *)
Definition huge : float := 0x1p600%float.
Definition tiny_scale : float := 0x1p-600%float.
Definition small : float := 0x1.38p-537%float.

(** Exact operands. *)
Definition users_exact : ndarray2 R := Ndarray2 [[1; 2]; [0; 0]]%R 2.
Definition reference_exact : list R := [1; 3]%R.

End Examples.

Module MoreExamples.

(** A table with a NaN in row 0, and a reference vector with a NaN. *)
Definition nan_table : ndarray2 float := Ndarray2 [[1; nan]; [3; 4]]%float 2.
Definition nan_reference : list float := [1; nan]%float.

(** Nonzero values whose squares underflow to zero. *)
Definition faint : float := 0x1p-600%float.
Definition faint_reference : list float := [faint; 0]%float.
Definition faint_table : ndarray2 float := Ndarray2 [[faint; faint]; [3; 4]]%float 2.

(** An exact table. *)
Definition table_exact : ndarray2 R := Ndarray2 [[3; 4]; [1; 0]]%R 2.

(** Tables of 2^31 and of 2^32 rows; the ones without columns hold no
    data. *)
Definition rows_2_31 : nat := Z.to_nat (2 ^ 31).
Definition empty_table_2_31 : ndarray2 float := Ndarray2 (replicate rows_2_31 []) 0.
Definition unit_table_2_31 : ndarray2 float :=
  Ndarray2 (replicate rows_2_31 [1%float]) 1.
Definition one_empty_row : ndarray2 float := Ndarray2 [[]] 0.

(** Two product matrices of one column with the same row 0. *)
Definition narrow_product_5 : ndarray2 float := Ndarray2 [[1]; [5]]%float 1.
Definition narrow_product_7 : ndarray2 float := Ndarray2 [[1]; [7]]%float 1.

End MoreExamples.


(** ** Loop lemmas *)

Section LoopLemmas.
Context {F : Type} `{Arith F}.

Lemma for_each_ext {S : Type} (idxs : list nat) (f g : nat -> S -> result S) (s : S) :
  (forall i s', i ∈ idxs -> f i s' = g i s') ->
  for_each idxs f s = for_each idxs g s.
Proof.
  revert s. induction idxs as [|i rest IH]; intros s Hfg; simpl; [reflexivity|].
  rewrite (Hfg i s) by left.
  destruct (g i s) as [s'| | |]; simpl; try reflexivity.
  apply IH. intros i' s'' Hin. apply Hfg. by right.
Qed.

Lemma for_range_ext {S : Type} (n : nat) (f g : nat -> S -> result S) (s : S) :
  (forall i s', i < n -> f i s' = g i s') ->
  for_range n f s = for_range n g s.
Proof.
  intros Hfg. apply for_each_ext. intros i s' Hin. apply Hfg.
  apply elem_of_seq in Hin. lia.
Qed.

Lemma for_each_app {S : Type} (l1 l2 : list nat) (f : nat -> S -> result S) (s : S) :
  for_each (l1 ++ l2) f s = (for_each l1 f s ≫= for_each l2 f).
Proof.
  revert s. induction l1 as [|i rest IH]; intros s; simpl; [reflexivity|].
  destruct (f i s) as [s'| | |]; simpl; try reflexivity. apply IH.
Qed.

Lemma for_range_S {S : Type} (n : nat) (f : nat -> S -> result S) (s : S) :
  for_range (Datatypes.S n) f s = (for_range n f s ≫= f n).
Proof.
  unfold for_range. rewrite seq_S, for_each_app. simpl.
  destruct (for_each (seq 0 n) f s) as [s'| | |]; simpl; try reflexivity.
  destruct (f n s'); reflexivity.
Qed.

Lemma get1_lookup (v : list F) (j : nat) (x : F) :
  v !! j = Some x -> get1 v j = Returned x.
Proof. unfold get1. by intros ->. Qed.

Lemma get1_take (v : list F) (n j : nat) :
  j < n -> get1 (take n v) j = get1 v j.
Proof. intros Hj. unfold get1. by rewrite lookup_take_lt. Qed.

(** The accumulation loop shared by all three routines. *)
Lemma dot_loop (u v : list F) (n : nat) :
  n <= length u -> n <= length v ->
  for_range n (fun j acc =>
      a ← get1 u j; b ← get1 v j; Returned (fadd acc (fmul a b))) fzero
  = Returned (dot (take n u) (take n v)).
Proof.
  induction n as [|n IH]; intros Hu Hv; [reflexivity|].
  rewrite for_range_S, IH by lia. simpl.
  destruct (lookup_lt_is_Some_2 u n) as [a Ha]; [lia|].
  destruct (lookup_lt_is_Some_2 v n) as [b Hb]; [lia|].
  rewrite (get1_lookup _ _ _ Ha), (get1_lookup _ _ _ Hb). simpl.
  rewrite (take_S_r _ _ _ Ha), (take_S_r _ _ _ Hb).
  unfold dot. rewrite zip_with_app by (rewrite !length_take; lia).
  by rewrite foldl_app.
Qed.

(** The single pass of the similarity routines: dot product and squared
    row norm accumulated side by side. *)
Lemma dot_norm_loop (m : ndarray2 F) (v row : list F) (i n : nat) :
  rows m !! i = Some row -> n <= length v -> n <= length row ->
  for_range n (fun j '(dot_product, norm_other_sq) =>
      a ← get1 v j;
      b ← get2 m i j;
      let dot_product := fadd dot_product (fmul a b) in
      c ← get2 m i j;
      d ← get2 m i j;
      Returned (dot_product, fadd norm_other_sq (fmul c d))) (fzero, fzero)
  = Returned (dot (take n v) (take n row), dot (take n row) (take n row)).
Proof.
  intros Hrow. induction n as [|n IH]; intros Hv Hr; [reflexivity|].
  rewrite for_range_S, IH by lia. simpl.
  destruct (lookup_lt_is_Some_2 v n) as [a Ha]; [lia|].
  destruct (lookup_lt_is_Some_2 row n) as [b Hb]; [lia|].
  unfold get2. rewrite Hrow, (get1_lookup _ _ _ Ha), (get1_lookup _ _ _ Hb). simpl.
  rewrite (take_S_r _ _ _ Ha), (take_S_r _ _ _ Hb).
  unfold dot. rewrite !zip_with_app by (rewrite !length_take; lia).
  by rewrite !foldl_app.
Qed.

(** [mapM] in the outcome monad. *)
Lemma mapM_app {A B : Type} (g : A -> result B) (l1 l2 : list A) :
  mapM g (l1 ++ l2) = (a ← mapM g l1; b ← mapM g l2; Returned (a ++ b)).
Proof.
  induction l1 as [|x l1 IH]; simpl.
  - destruct (mapM g l2); reflexivity.
  - destruct (g x) as [y| | |]; simpl; try reflexivity.
    rewrite IH. destruct (mapM g l1) as [a| | |]; simpl; try reflexivity.
    destruct (mapM g l2); reflexivity.
Qed.

Lemma mapM_length {A B : Type} (g : A -> result B) (l : list A) (k : list B) :
  mapM g l = Returned k -> length k = length l.
Proof.
  revert k. induction l as [|x l IH]; simpl; intros k Hk.
  - by inversion Hk.
  - destruct (g x) as [y| | |]; simpl in Hk; try discriminate.
    destruct (mapM g l) as [a| | |]; simpl in Hk; try discriminate.
    inversion Hk; subst. simpl. f_equal. by apply IH.
Qed.

Lemma mapM_Returned {A B : Type} (g : A -> result B) (h : A -> B) (l : list A) :
  (forall x, x ∈ l -> g x = Returned (h x)) -> mapM g l = Returned (h <$> l).
Proof.
  induction l as [|x l IH]; intros Hg; [reflexivity|]. simpl.
  rewrite (Hg x) by left. simpl. rewrite IH; [reflexivity|].
  intros y Hy. apply Hg. by right.
Qed.

(** Indexing a list inside a loop over [range(len)] visits its elements. *)
Lemma mapM_seq_lookup {A B : Type} (g : nat -> result B) (h : A -> result B) (l : list A) :
  (forall i x, l !! i = Some x -> g i = h x) ->
  mapM g (seq 0 (length l)) = mapM h l.
Proof.
  induction l as [|x l IH] using rev_ind; intros Hg; [reflexivity|].
  rewrite length_app, Nat.add_1_r, seq_S, !mapM_app. simpl.
  rewrite IH.
  - rewrite (Hg (length l) x); [reflexivity|].
    rewrite lookup_app_r by lia. by rewrite Nat.sub_diag.
  - intros i y Hi. apply Hg. rewrite lookup_app_l; [done|].
    by eapply lookup_lt_Some.
Qed.

(** A loop that stores one value per index into a zero-initialised vector,
    or leaves the zero in place, builds the vector of those values. *)
Lemma fill_vector_loop (g : nat -> result F) (body : nat -> list F -> result (list F))
    (n : nat) :
  (forall i sims, i < n -> length sims = n -> sims !! i = Some fzero ->
     body i sims = (x ← g i; Returned (<[i := x]> sims))) ->
  for_range n body (zeros1 n) = mapM g (seq 0 n).
Proof.
  intros Hbody.
  assert (forall k, k <= n ->
    for_range k body (zeros1 n) =
      (vals ← mapM g (seq 0 k); Returned (vals ++ replicate (n - k) fzero))) as Hk.
  { induction k as [|k IH]; intros Hle.
    - simpl. by rewrite Nat.sub_0_r.
    - rewrite for_range_S, IH, seq_S, mapM_app by lia. simpl.
      destruct (mapM g (seq 0 k)) as [vals| | |] eqn:Hvals; simpl; try reflexivity.
      apply mapM_length in Hvals. rewrite length_seq in Hvals.
      rewrite Hbody.
      + destruct (g k) as [x| | |]; simpl; try reflexivity.
        f_equal. replace (n - k) with (S (n - S k)) by lia. simpl.
        rewrite insert_app_r_alt by lia.
        rewrite Hvals, Nat.sub_diag. simpl. by rewrite <- app_assoc.
      + lia.
      + rewrite length_app, length_replicate. lia.
      + rewrite lookup_app_r by lia. apply lookup_replicate_2. lia. }
  rewrite Hk by lia. rewrite Nat.sub_diag.
  destruct (mapM g (seq 0 n)); simpl; try reflexivity. by rewrite app_nil_r.
Qed.

End LoopLemmas.

(** ** Closed forms of the three routines *)

Section ClosedForms.
Context {F : Type} `{Arith F}.

Lemma wf_row_length (m : ndarray2 F) (i : nat) (row : list F) :
  wf m = true -> rows m !! i = Some row -> length row = ncols m.
Proof.
  unfold wf. rewrite forallb_forall. intros Hwf Hrow.
  apply Nat.eqb_eq, Hwf. apply list_elem_of_In. by eapply list_elem_of_lookup_2.
Qed.

Lemma wf_elem_length (m : ndarray2 F) (row : list F) :
  wf m = true -> row ∈ rows m -> length row = ncols m.
Proof.
  intros Hwf [i Hi]%list_elem_of_lookup_1. by eapply wf_row_length.
Qed.

(** The similarity vector of a matrix against a reference vector at least as
    long as the matrix is wide: all zeros when the reference norm compares
    equal to zero, otherwise one [cosine_entry] per row, in row order. *)
Lemma user_similarity_unfold (m : ndarray2 F) (v : list F) :
  wf m = true -> shape1 m <= length v ->
  compute_user_similarity_matrix m v =
    let v' := take (shape1 m) v in
    if feqb (norm v') fzero then Returned (zeros1 (shape0 m))
    else mapM (cosine_entry (norm v') v') (rows m).
Proof.
  intros Hwf Hlen. unfold compute_user_similarity_matrix.
  rewrite (dot_loop v v) by done. simpl.
  fold (norm (take (shape1 m) v)).
  destruct (feqb (norm (take (shape1 m) v)) fzero); [reflexivity|].
  set (v' := take (shape1 m) v). set (nu := norm v').
  rewrite (fill_vector_loop (fun i =>
    match rows m !! i with
    | Some row => cosine_entry nu v' row
    | None => OutOfBounds
    end)).
  - unfold shape0. by apply mapM_seq_lookup; intros i row ->.
  - intros i sims Hi Hsims Hzero.
    destruct (lookup_lt_is_Some_2 (rows m) i) as [row Hrow]; [done|].
    rewrite Hrow.
    pose proof (wf_row_length m i row Hwf Hrow) as Hrl.
    rewrite (dot_norm_loop m v row i) by (first [done | unfold shape1; lia]). simpl.
    rewrite (take_ge row) by (unfold shape1; lia).
    unfold cosine_entry. fold v'. fold (norm row).
    destruct (fgtb (norm row) fzero); simpl; [reflexivity|].
    by rewrite list_insert_id.
Qed.

Lemma get2_reference_row (product_features : ndarray2 F) (j : nat) :
  get2 product_features 0 j = get1 (reference_row product_features) j.
Proof.
  unfold get2, reference_row. by destruct (rows product_features !! 0).
Qed.

(** [compute_product_similarity] is [compute_user_similarity_matrix] on the
    reference row. *)
Lemma product_similarity_as_user (liked_features product_features : ndarray2 F) :
  compute_product_similarity liked_features product_features =
  compute_user_similarity_matrix liked_features (reference_row product_features).
Proof.
  unfold compute_product_similarity, compute_user_similarity_matrix.
  erewrite for_range_ext; last first.
  { intros j acc _. rewrite get2_reference_row. reflexivity. }
  destruct (for_range _ _ fzero) as [nsq| | |]; simpl; try reflexivity.
  destruct (feqb (fsqrt nsq) fzero); [reflexivity|].
  apply for_range_ext. intros i sims _.
  f_equal. apply for_range_ext. intros j [d n] _.
  by rewrite get2_reference_row.
Qed.

(** Filling row [i] of a matrix cell by cell. *)
Lemma fill_row_loop (g : nat -> result F) (i k c : nat) (pre post : list (list F)) :
  length pre = i ->
  for_range k (fun j res => x ← g j; Returned (set2 res i j x))
    (Ndarray2 (pre ++ replicate k fzero :: post) c)
  = (vals ← mapM g (seq 0 k); Returned (Ndarray2 (pre ++ vals :: post) c)).
Proof.
  intros Hpre.
  assert (forall k', k' <= k ->
    for_range k' (fun j res => x ← g j; Returned (set2 res i j x))
      (Ndarray2 (pre ++ replicate k fzero :: post) c)
    = (vals ← mapM g (seq 0 k');
       Returned (Ndarray2 (pre ++ (vals ++ replicate (k - k') fzero) :: post) c))) as Hk.
  { induction k' as [|k' IH]; intros Hle.
    - simpl. by rewrite Nat.sub_0_r.
    - rewrite for_range_S, IH, seq_S, mapM_app by lia. simpl.
      destruct (mapM g (seq 0 k')) as [vals| | |] eqn:Hvals; simpl; try reflexivity.
      apply mapM_length in Hvals. rewrite length_seq in Hvals.
      destruct (g k') as [x| | |]; simpl; try reflexivity.
      f_equal. unfold set2. simpl.
      rewrite lookup_app_r by lia.
      replace (i - length pre) with 0 by lia. simpl.
      f_equal. rewrite insert_app_r_alt by lia.
      replace (i - length pre) with 0 by lia. simpl.
      do 2 f_equal. replace (k - k') with (S (k - S k')) by lia. simpl.
      rewrite insert_app_r_alt by lia.
      rewrite Hvals, Nat.sub_diag. simpl. by rewrite <- app_assoc. }
  rewrite Hk by lia. rewrite Nat.sub_diag.
  destruct (mapM g (seq 0 k)); simpl; try reflexivity. by rewrite app_nil_r.
Qed.

(** Filling a zero-initialised matrix row by row. *)
Lemma fill_matrix_loop (h : nat -> result (list F))
    (body : nat -> ndarray2 F -> result (ndarray2 F)) (n k : nat) :
  (forall i pre post, length pre = i -> i < n ->
     body i (Ndarray2 (pre ++ replicate k fzero :: post) k)
     = (vals ← h i; Returned (Ndarray2 (pre ++ vals :: post) k))) ->
  for_range n body (zeros2 n k) = (mat ← mapM h (seq 0 n); Returned (Ndarray2 mat k)).
Proof.
  intros Hbody.
  assert (forall n', n' <= n ->
    for_range n' body (zeros2 n k) =
      (mat ← mapM h (seq 0 n');
       Returned (Ndarray2 (mat ++ replicate (n - n') (replicate k fzero)) k))) as Hn.
  { induction n' as [|n' IH]; intros Hle.
    - simpl. by rewrite Nat.sub_0_r.
    - rewrite for_range_S, IH, seq_S, mapM_app by lia. simpl.
      destruct (mapM h (seq 0 n')) as [mat| | |] eqn:Hmat; simpl; try reflexivity.
      apply mapM_length in Hmat. rewrite length_seq in Hmat.
      replace (n - n') with (S (n - S n')) by lia. simpl.
      rewrite Hbody by lia.
      destruct (h n') as [vals| | |]; simpl; try reflexivity.
      by rewrite <- app_assoc. }
  rewrite Hn by lia. rewrite Nat.sub_diag.
  destruct (mapM h (seq 0 n)); simpl; try reflexivity. by rewrite app_nil_r.
Qed.

Lemma dot_product_batch_unfold (matrix_a matrix_b : ndarray2 F) :
  wf matrix_a = true ->
  (forall rb, rb ∈ rows matrix_b -> shape1 matrix_a <= length rb) ->
  compute_dot_product_batch matrix_a matrix_b = Returned (dot_table matrix_a matrix_b).
Proof.
  intros Hwf Hb. unfold compute_dot_product_batch.
  set (m := shape1 matrix_a).
  set (cell := fun i j : nat =>
    for_range m (fun idx dot_product =>
      a ← get2 matrix_a i idx; b ← get2 matrix_b j idx;
      Returned (fadd dot_product (fmul a b))) fzero).
  rewrite (fill_matrix_loop (fun i => mapM (cell i) (seq 0 (shape0 matrix_b)))).
  - unfold dot_table, shape0. fold m.
    rewrite (mapM_seq_lookup _ (fun ra =>
      Returned ((fun rb => dot ra (take m rb)) <$> rows matrix_b))).
    + rewrite (mapM_Returned _ (fun ra => (fun rb => dot ra (take m rb)) <$> rows matrix_b))
        by done.
      reflexivity.
    + intros i ra Hra.
      rewrite (mapM_seq_lookup _ (fun rb => Returned (dot ra (take m rb)))).
      * by apply mapM_Returned.
      * intros j rb Hrb. unfold cell.
        erewrite for_range_ext; last first.
        { intros idx acc _. unfold get2. rewrite Hra, Hrb. reflexivity. }
        rewrite dot_loop.
        -- rewrite (take_ge ra); [reflexivity|].
           rewrite (wf_row_length _ _ _ Hwf Hra). done.
        -- rewrite (wf_row_length _ _ _ Hwf Hra). done.
        -- apply Hb. by eapply list_elem_of_lookup_2.
  - intros i pre post Hpre Hi.
    apply (fill_row_loop (cell i)). done.
Qed.

End ClosedForms.

(** ** Operands of the wrong size *)

Section Mismatch.
Context {F : Type} `{Arith F}.

(** Entries of the reference vector past the matrix width are never read. *)
Lemma user_similarity_take (m : ndarray2 F) (v : list F) :
  compute_user_similarity_matrix m v =
  compute_user_similarity_matrix m (take (shape1 m) v).
Proof.
  unfold compute_user_similarity_matrix.
  rewrite (for_range_ext (shape1 m) _ (fun j user_norm_sq =>
      x ← get1 (take (shape1 m) v) j;
      y ← get1 (take (shape1 m) v) j;
      Returned (fadd user_norm_sq (fmul x y))));
    [|by intros j acc Hj; rewrite get1_take].
  destruct (for_range _ _ fzero) as [nsq| | |]; simpl; try reflexivity.
  destruct (feqb (fsqrt nsq) fzero); [reflexivity|].
  apply for_range_ext. intros i sims _.
  f_equal. apply for_range_ext. intros j [d n] Hj.
  by rewrite get1_take.
Qed.

Lemma for_range_succeeds {S : Type} (n : nat) (f : nat -> S -> result S) (s : S) :
  (forall j s', j < n -> exists s'', f j s' = Returned s'') ->
  exists s', for_range n f s = Returned s'.
Proof.
  intros Hf. induction n as [|n IH]; [by exists s|].
  rewrite for_range_S. destruct IH as [s' ->]; [intros; apply Hf; lia|].
  simpl. apply Hf. lia.
Qed.

(** A loop whose body runs past a buffer at index [k], having succeeded
    before, has no defined result. *)
Lemma for_range_out_of_bounds {S : Type} (n k : nat) (f : nat -> S -> result S) (s : S) :
  k < n ->
  (forall j s', j < k -> exists s'', f j s' = Returned s'') ->
  (forall s', f k s' = OutOfBounds) ->
  for_range n f s = OutOfBounds.
Proof.
  intros Hk Hbefore Hat. induction n as [|n IH]; [lia|].
  rewrite for_range_S. destruct (decide (k = n)) as [->|Hne].
  - destruct (for_range_succeeds n f s Hbefore) as [s' ->]. apply Hat.
  - by rewrite IH by lia.
Qed.

Lemma get1_short (v : list F) (j : nat) : length v <= j -> get1 v j = OutOfBounds.
Proof. intros Hj. unfold get1. by rewrite lookup_ge_None_2. Qed.

Lemma get1_in_range (v : list F) (j : nat) :
  j < length v -> exists x, get1 v j = Returned x.
Proof.
  intros Hj. destruct (lookup_lt_is_Some_2 v j Hj) as [x Hx].
  exists x. by apply get1_lookup.
Qed.

(** A reference vector shorter than the matrix is wide is read past its end. *)
Lemma user_similarity_short (m : ndarray2 F) (v : list F) :
  length v < shape1 m -> compute_user_similarity_matrix m v = OutOfBounds.
Proof.
  intros Hlen. unfold compute_user_similarity_matrix.
  rewrite (for_range_out_of_bounds (shape1 m) (length v)); [reflexivity|done| |].
  - intros j acc Hj. destruct (get1_in_range v j Hj) as [x ->]. simpl. by eexists.
  - intros acc. by rewrite get1_short.
Qed.



End Mismatch.

(** ** The routines under the laws *)

Section Lawful.
Context {F : Type} `{ArithLaws F}.

Lemma cosine_entry_Returned (v row : list F) :
  feqb (norm v) fzero = false ->
  cosine_entry (norm v) v row = Returned (cosine (norm v) v row).
Proof.
  intros Hv. unfold cosine_entry, cosine.
  destruct (fgtb (norm row) fzero) eqn:Hrow; [|reflexivity].
  unfold checked_div, norm in *. by rewrite (fsqrt_mul_nonzero _ _ Hv Hrow).
Qed.

(** With matching dimensions the similarity routine always returns: a vector
    of zeros, or one cosine per row. *)
Lemma user_similarity_total (m : ndarray2 F) (v : list F) :
  wf m = true -> length v = shape1 m ->
  compute_user_similarity_matrix m v =
    Returned (if feqb (norm v) fzero then zeros1 (shape0 m)
              else cosine (norm v) v <$> rows m).
Proof.
  intros Hwf Hlen. rewrite user_similarity_unfold by (first [done|lia]).
  simpl. rewrite take_ge by lia.
  destruct (feqb (norm v) fzero) eqn:Hv; [reflexivity|].
  apply mapM_Returned. intros row _. by apply cosine_entry_Returned.
Qed.

End Lawful.

(** ** Binary64 satisfies the laws

    From the specification of the primitive floats: a square root is never
    negative and, when finite and nonzero, is a normal number of exponent at
    least -589 (value at least 2^-537), so that the product of two of them is
    at least the least subnormal 2^-1074 and does not round to zero. *)

Section Binary64.
Local Open Scope Z_scope.

(** A positive with [d] binary digits lies in [[2^(d-1), 2^d)]. *)
Lemma digits2_pos_bounds (p : positive) :
  2 ^ (Zpos (digits2_pos p) - 1) <= Zpos p < 2 ^ Zpos (digits2_pos p).
Proof.
  induction p as [p IH|p IH|]; simpl digits2_pos.
  - rewrite Pos2Z.inj_succ.
    replace (Z.succ (Zpos (digits2_pos p)) - 1)
      with (Z.succ (Zpos (digits2_pos p) - 1)) by lia.
    rewrite !Z.pow_succ_r by lia. lia.
  - rewrite Pos2Z.inj_succ.
    replace (Z.succ (Zpos (digits2_pos p)) - 1)
      with (Z.succ (Zpos (digits2_pos p) - 1)) by lia.
    rewrite !Z.pow_succ_r by lia. lia.
  - simpl. lia.
Qed.

(** Shifting a mantissa right [p] times divides it by [2^p]. *)
Lemma iter_pos_shr_1 (p : positive) (mrs : shr_record) :
  0 <= shr_m mrs ->
  shr_m (SpecFloat.iter_pos shr_1 p mrs) = shr_m mrs / 2 ^ Zpos p.
Proof.
  assert (Hone : forall r, 0 <= shr_m r ->
    0 <= shr_m (shr_1 r) /\ shr_m (shr_1 r) = shr_m r / 2).
  { intros [m r s] Hm. cbn [shr_m] in Hm. cbn [shr_1 shr_m].
    rewrite <- Z.div2_div.
    destruct m as [|[q|q|]|q]; cbn [shr_m]; try lia; (split; [lia|reflexivity]). }
  assert (Hall : forall q r, 0 <= shr_m r ->
    0 <= shr_m (SpecFloat.iter_pos shr_1 q r)
    /\ shr_m (SpecFloat.iter_pos shr_1 q r) = shr_m r / 2 ^ Zpos q).
  { induction q as [q IH|q IH|]; intros r Hr; simpl SpecFloat.iter_pos.
    - destruct (Hone r Hr) as [H1 H2].
      destruct (IH _ H1) as [H3 H4].
      destruct (IH _ H3) as [H5 H6].
      split; [done|]. rewrite H6, H4, H2.
      rewrite !Z.div_div by lia. f_equal.
      rewrite <- Z.pow_add_r, <- Z.pow_succ_r by lia. f_equal. lia.
    - destruct (IH _ Hr) as [H3 H4].
      destruct (IH _ H3) as [H5 H6].
      split; [done|]. rewrite H6, H4.
      rewrite !Z.div_div by lia. f_equal.
      rewrite <- Z.pow_add_r by lia. f_equal. lia.
    - destruct (Hone r Hr) as [H1 H2]. split; [done|]. rewrite H2. reflexivity. }
  intros Hm. apply Hall, Hm.
Qed.

Lemma shr_exponent (mrs : shr_record) (e n : Z) :
  snd (shr mrs e n) = e + Z.max n 0.
Proof. destruct n; simpl; lia. Qed.

Lemma shr_mantissa (mrs : shr_record) (e n : Z) :
  0 <= shr_m mrs ->
  shr_m (fst (shr mrs e n)) = shr_m mrs / 2 ^ Z.max n 0.
Proof.
  intros Hm. destruct n as [|p|p]; simpl fst.
  - simpl. by rewrite Z.div_1_r.
  - rewrite iter_pos_shr_1 by done. f_equal.
  - simpl. by rewrite Z.div_1_r.
Qed.

Lemma shr_m_record_of_loc (m : Z) (l : location) :
  shr_m (shr_record_of_loc m l) = m.
Proof. by destruct l as [|[]]. Qed.

Lemma Zdigits2_bounds (m : Z) :
  0 < m -> 2 ^ (Zdigits2 m - 1) <= m < 2 ^ Zdigits2 m.
Proof. destruct m as [|p|p]; try lia. intros _. apply digits2_pos_bounds. Qed.

Lemma Zdigits2_pos (m : Z) : 0 < m -> 0 < Zdigits2 m.
Proof. destruct m; simpl; lia. Qed.

(** The exponent after alignment is never below [emin]. *)
Lemma shr_fexp_exponent (m e : Z) (l : location) :
  e <= snd (shr_fexp prec emax m e l) /\ emin <= snd (shr_fexp prec emax m e l).
Proof.
  unfold shr_fexp. rewrite shr_exponent. unfold SpecFloat.fexp. lia.
Qed.

(** Alignment keeps a positive mantissa positive when the number is not
    below the least subnormal. *)
Lemma shr_fexp_mantissa_pos (m e : Z) (l : location) :
  0 < m -> emin < Zdigits2 m + e ->
  0 < shr_m (fst (shr_fexp prec emax m e l)).
Proof.
  intros Hm Hd. unfold shr_fexp.
  rewrite shr_mantissa by (rewrite shr_m_record_of_loc; lia).
  rewrite shr_m_record_of_loc.
  pose proof (Zdigits2_bounds m Hm) as [Hlo _].
  pose proof (Zdigits2_pos m Hm) as Hdp.
  set (n := Z.max (fexp prec emax (Zdigits2 m + e) - e) 0).
  assert (0 <= n <= Zdigits2 m - 1) as Hn.
  { unfold n, SpecFloat.fexp, SpecFloat.emin, prec, emax in *. lia. }
  apply Z.div_str_pos. split; [apply Z.pow_pos_nonneg; lia|].
  etransitivity; [|exact Hlo]. apply Z.pow_le_mono_r; lia.
Qed.

Lemma round_nearest_even_ge (m : Z) (l : location) :
  m <= round_nearest_even m l.
Proof. destruct l as [|[]]; simpl; try lia. destruct (Z.even m); lia. Qed.

(** Rounding keeps the sign and never lowers the exponent. *)
Lemma binary_round_aux_shape (s : bool) (m e : Z) (l : location) :
  match binary_round_aux prec emax s m e l with
  | S754_finite s' _ e' => s' = s /\ e <= e'
  | S754_infinity s' => s' = s
  | S754_zero s' => s' = s
  | S754_nan => True
  end.
Proof.
  unfold binary_round_aux.
  pose proof (shr_fexp_exponent m e l) as [H1 _].
  destruct (shr_fexp prec emax m e l) as [mrs' e'] eqn:E1. simpl in H1.
  match goal with
  | |- context [shr_fexp prec emax ?m2 e' loc_Exact] =>
      pose proof (shr_fexp_exponent m2 e' loc_Exact) as [H2 _];
      destruct (shr_fexp prec emax m2 e' loc_Exact) as [mrs'' e''] eqn:E2
  end.
  simpl in H2.
  destruct (shr_m mrs''); try done.
  destruct (e'' <=? emax - prec); [split; [done|lia] | done].
Qed.

(** Rounding a number not below the least subnormal never gives zero. *)
Lemma binary_round_aux_nonzero (s : bool) (m e : Z) (l : location) :
  0 < m -> emin < Zdigits2 m + e ->
  forall s', binary_round_aux prec emax s m e l <> S754_zero s'.
Proof.
  intros Hm Hd s'. unfold binary_round_aux.
  pose proof (shr_fexp_exponent m e l) as [_ H1].
  pose proof (shr_fexp_mantissa_pos m e l Hm Hd) as H1m.
  destruct (shr_fexp prec emax m e l) as [mrs' e'] eqn:E1. simpl in H1, H1m.
  pose proof (round_nearest_even_ge (shr_m mrs') (loc_of_shr_record mrs')) as Hr.
  set (m2 := round_nearest_even (shr_m mrs') (loc_of_shr_record mrs')) in *.
  assert (0 < m2) as Hm2 by lia.
  pose proof (Zdigits2_pos m2 Hm2) as Hd2.
  pose proof (shr_fexp_mantissa_pos m2 e' loc_Exact Hm2 ltac:(lia)) as H2m.
  destruct (shr_fexp prec emax m2 e' loc_Exact) as [mrs'' e''] eqn:E2. simpl in H2m.
  destruct (shr_m mrs''); try lia.
  - by destruct (e'' <=? emax - prec).
Qed.


(** The exponent of a valid finite number is the canonical one. *)
Lemma valid_finite_exponent (sg : bool) (m : positive) (e : Z) :
  valid_binary (S754_finite sg m e) = true ->
  e = Z.max (Zpos (digits2_pos m) + e - 53) (-1074).
Proof.
  simpl. unfold bounded, canonical_mantissa, SpecFloat.fexp, SpecFloat.emin, prec, emax.
  intros [Hc _]%andb_prop. apply Z.eqb_eq in Hc.
  unfold SpecFloat.fexp, SpecFloat.emin in Hc. lia.
Qed.

(** A square root is never negative, and when finite and nonzero its
    exponent is at least -589: it is a normal number, not below 2^-537. *)
Lemma SFsqrt_shape (x : spec_float) :
  valid_binary x = true ->
  match SF64sqrt x with
  | S754_finite sg _ e => sg = false /\ -589 <= e
  | S754_infinity sg => sg = false
  | _ => True
  end.
Proof.
  intros Hx. destruct x as [sg|[]| |[] m e]; try done.
  apply valid_finite_exponent in Hx.
  unfold SF64sqrt, SFsqrt, SFsqrt_core_binary.
  destruct (Z.sqrtrem _) as [q r].
  match goal with
  | |- context [binary_round_aux prec emax false q ?e' ?l] =>
      pose proof (binary_round_aux_shape false q e' l) as Hs;
      assert (-589 <= e') as He';
      [|destruct (binary_round_aux prec emax false q e' l); try done; split; [tauto|lia]]
  end.
  unfold SpecFloat.fexp, SpecFloat.emin, prec, emax. simpl Zdigits2.
  rewrite !Z.div2_div.
  pose proof (Z.div_le_lower_bound e 2 (-537) ltac:(lia) ltac:(lia)).
  pose proof (Z.div_le_lower_bound (Zpos (digits2_pos m) + e + 1) 2 (-536)
                ltac:(lia) ltac:(lia)).
  lia.
Qed.

(** The product of two valid finite numbers with exponents at least -589
    does not round to zero. *)
Lemma SFmul_nonzero (m1 m2 : positive) (e1 e2 : Z) :
  valid_binary (S754_finite false m1 e1) = true ->
  valid_binary (S754_finite false m2 e2) = true ->
  -589 <= e1 -> -589 <= e2 ->
  forall sg, SF64mul (S754_finite false m1 e1) (S754_finite false m2 e2) <> S754_zero sg.
Proof.
  intros H1%valid_finite_exponent H2%valid_finite_exponent He1 He2 sg.
  unfold SF64mul, SFmul. apply binary_round_aux_nonzero; [lia|].
  pose proof (digits2_pos_bounds m1) as [L1 _].
  pose proof (digits2_pos_bounds m2) as [L2 _].
  pose proof (digits2_pos_bounds (m1 * m2)) as [_ U].
  assert (Zpos (digits2_pos m1) = 53) as D1 by lia.
  assert (Zpos (digits2_pos m2) = 53) as D2 by lia.
  rewrite D1 in L1. rewrite D2 in L2.
  assert (2 ^ 104 <= Zpos (m1 * m2)) as L.
  { rewrite Pos2Z.inj_mul. change (2 ^ 104) with (2 ^ (53 - 1) * 2 ^ (53 - 1)).
    apply Z.mul_le_mono_nonneg; lia. }
  assert (104 < Zpos (digits2_pos (m1 * m2))) as D.
  { apply (Z.pow_lt_mono_r_iff 2); lia. }
  unfold SpecFloat.emin, prec, emax. simpl Zdigits2. lia.
Qed.

(** The facts about binary64 that the guards of the similarity routines
    rely on. *)

Lemma float_gt_nonzero (x : float) :
  (0 <? x)%float = true -> (x =? 0)%float = false.
Proof.
  rewrite ltb_spec, eqb_spec. change (Prim2SF 0) with (S754_zero false).
  by destruct (Prim2SF x) as [?|[]| |[] ? ?].
Qed.

Lemma float_sqrt_pos (a : float) :
  (PrimFloat.sqrt a =? 0)%float = false ->
  (PrimFloat.sqrt a =? PrimFloat.sqrt a)%float = true ->
  (0 <? PrimFloat.sqrt a)%float = true.
Proof.
  rewrite ltb_spec, !eqb_spec, sqrt_spec. change (Prim2SF 0) with (S754_zero false).
  pose proof (SFsqrt_shape (Prim2SF a) (Prim2SF_valid a)) as Hs.
  destruct (SF64sqrt (Prim2SF a)) as [?|[]| |[] ? ?]; try done.
  by destruct Hs.
Qed.

Lemma float_sqrt_mul_nonzero (a b : float) :
  (PrimFloat.sqrt a =? 0)%float = false -> (0 <? PrimFloat.sqrt b)%float = true ->
  (PrimFloat.sqrt a * PrimFloat.sqrt b =? 0)%float = false.
Proof.
  rewrite ltb_spec, !eqb_spec, mul_spec. change (Prim2SF 0) with (S754_zero false).
  pose proof (Prim2SF_valid (PrimFloat.sqrt a)) as Va.
  pose proof (Prim2SF_valid (PrimFloat.sqrt b)) as Vb.
  rewrite sqrt_spec in Va. rewrite sqrt_spec in Vb. rewrite !sqrt_spec.
  pose proof (SFsqrt_shape (Prim2SF a) (Prim2SF_valid a)) as Sa.
  pose proof (SFsqrt_shape (Prim2SF b) (Prim2SF_valid b)) as Sb.
  destruct (SF64sqrt (Prim2SF a)) as [?|sa| |sa ma ea];
    destruct (SF64sqrt (Prim2SF b)) as [?|sb| |sb mb eb]; try done.
  - by subst.
  - subst sa. by destruct Sb as [-> _].
  - subst sb. by destruct Sa as [-> _].
  - destruct Sa as [-> Ea], Sb as [-> Eb]. intros _ _.
    pose proof (SFmul_nonzero ma mb ea eb Va Vb Ea Eb) as Hnz.
    destruct (SF64mul _ _) as [sg|[]| |[] m e]; try done.
    by destruct (Hnz sg).
Qed.

End Binary64.

#[global] Instance float64_laws : ArithLaws float.
Proof.
  split.
  - reflexivity.
  - apply float_gt_nonzero.
  - apply float_sqrt_pos.
  - apply float_sqrt_mul_nonzero.
Qed.

(** ** Exact arithmetic: the laws, and the algebra of cosine similarity *)

Section Exact.
Local Open Scope R_scope.

Lemma exact_feqb (x y : R) : feqb x y = true <-> x = y.
Proof. simpl. destruct (Req_dec_T x y); split; (done || congruence). Qed.

Lemma exact_feqb_false (x y : R) : feqb x y = false <-> x <> y.
Proof. simpl. destruct (Req_dec_T x y); split; (done || congruence). Qed.

Lemma exact_fgtb (x y : R) : fgtb x y = true <-> y < x.
Proof. simpl. destruct (Rlt_dec y x); split; (done || congruence). Qed.

#[global] Instance exact_laws : ArithLaws R.
Proof.
  split.
  - apply exact_feqb. simpl. apply sqrt_0.
  - intros x Hx%exact_fgtb. apply exact_feqb_false. simpl in *. lra.
  - intros a Ha%exact_feqb_false _. apply exact_fgtb.
    pose proof (sqrt_pos a). simpl in *. lra.
  - intros a b Ha%exact_feqb_false Hb%exact_fgtb. apply exact_feqb_false.
    simpl in *. intros [?|?]%Rmult_integral; lra.
Qed.

Lemma dot_shift (l : list (R * R)) (a : R) :
  foldl (fun acc p => acc + p.1 * p.2) a l
  = a + foldl (fun acc p => acc + p.1 * p.2) 0 l.
Proof.
  revert a. induction l as [|p l IH]; intros a; simpl; [lra|].
  rewrite (IH (a + _)), (IH (0 + _)). lra.
Qed.

Lemma dot_nil_l (v : list R) : dot [] v = 0.
Proof. reflexivity. Qed.

Lemma dot_nil_r (u : list R) : dot u [] = 0.
Proof. by destruct u. Qed.

Lemma dot_cons (x y : R) (u v : list R) :
  dot (x :: u) (y :: v) = x * y + dot u v.
Proof. unfold dot. simpl. rewrite dot_shift. lra. Qed.

Lemma dot_self_nonneg (u : list R) : 0 <= dot u u.
Proof.
  induction u as [|x u IH]; [rewrite dot_nil_l; lra|]. rewrite dot_cons. nra.
Qed.

(** The quadratic [A t^2 - 2 S t + B] is a sum of squares. *)
Lemma dot_quadratic (u v : list R) (t : R) :
  0 <= dot u u * (t * t) - 2 * dot u v * t + dot v v.
Proof.
  revert v. induction u as [|x u IH]; intros v.
  - rewrite !dot_nil_l. pose proof (dot_self_nonneg v). lra.
  - destruct v as [|y v].
    + rewrite dot_nil_r, dot_nil_l. pose proof (dot_self_nonneg (x :: u)). nra.
    + rewrite !dot_cons. specialize (IH v).
      pose proof (Rle_0_sqr (x * t - y)) as Hsq. unfold Rsqr in Hsq. lra.
Qed.

(** Cauchy-Schwarz, for the sums as the loops take them. *)
Lemma cauchy_schwarz (u v : list R) :
  dot u v * dot u v <= dot u u * dot v v.
Proof.
  pose proof (dot_self_nonneg u) as HA. pose proof (dot_self_nonneg v) as HB.
  destruct (Req_dec_T (dot u u) 0) as [HA0|HA0].
  - assert (dot u v = 0) as ->; [|nra].
    destruct (Req_dec_T (dot u v) 0) as [|HS]; [done|].
    pose proof (dot_quadratic u v ((dot v v + 1) / (2 * dot u v))) as Hq.
    rewrite HA0 in Hq.
    replace (2 * dot u v * ((dot v v + 1) / (2 * dot u v))) with (dot v v + 1) in Hq
      by (field; lra).
    lra.
  - pose proof (dot_quadratic u v (dot u v / dot u u)) as Hq.
    replace (dot u u * (dot u v / dot u u * (dot u v / dot u u))
             - 2 * dot u v * (dot u v / dot u u) + dot v v)
      with ((dot u u * dot v v - dot u v * dot u v) / dot u u) in Hq by (field; lra).
    apply Rmult_le_compat_r with (r := dot u u) in Hq; [|lra].
    unfold Rdiv in Hq. rewrite Rmult_assoc, Rinv_l in Hq by lra. lra.
Qed.

Lemma norm_nonneg (u : list R) : 0 <= norm u.
Proof. apply sqrt_pos. Qed.

Lemma norm_square (u : list R) : norm u * norm u = dot u u.
Proof. apply sqrt_sqrt, dot_self_nonneg. Qed.

(** Every entry of a similarity vector lies in [-1, 1]. *)
Lemma cosine_range (v row : list R) :
  norm v <> 0 -> -1 <= cosine (norm v) v row <= 1.
Proof.
  intros Hv. unfold cosine.
  destruct (fgtb (norm row) fzero) eqn:Hrow; [|simpl; lra].
  apply exact_fgtb in Hrow. simpl in Hrow. simpl.
  pose proof (norm_nonneg v) as Hv0.
  pose proof (cauchy_schwarz v row) as Hcs.
  rewrite <- (norm_square v), <- (norm_square row) in Hcs.
  fold (norm row) in Hrow |- *.
  set (d := dot v row) in *. set (a := norm v) in *. set (b := norm row) in *.
  assert (0 < a) as Ha by (destruct Hv0 as [?|Heq]; [done|congruence]).
  assert (0 < a * b) as Hab by (by apply Rmult_lt_0_compat).
  assert (d <= a * b) as Hhi.
  { destruct (Rle_dec d (a * b)) as [?|Hn]; [done|]. exfalso. nra. }
  assert (- (a * b) <= d) as Hlo.
  { destruct (Rle_dec (- (a * b)) d) as [?|Hn]; [done|]. exfalso. nra. }
  split.
  - apply Rmult_le_reg_r with (r := a * b); [done|].
    unfold Rdiv. rewrite Rmult_assoc, Rinv_l by lra. lra.
  - apply Rmult_le_reg_r with (r := a * b); [done|].
    unfold Rdiv. rewrite Rmult_assoc, Rinv_l by lra. lra.
Qed.

(** Scaling the reference vector. *)
Lemma dot_scale_l (c : R) (u v : list R) :
  dot (Rmult c <$> u) v = c * dot u v.
Proof.
  revert v. induction u as [|x u IH]; intros [|y v]; simpl fmap.
  - rewrite !dot_nil_l. lra.
  - rewrite !dot_nil_l. lra.
  - rewrite !dot_nil_r. lra.
  - rewrite !dot_cons, IH. lra.
Qed.

Lemma dot_scale_r (c : R) (u v : list R) :
  dot u (Rmult c <$> v) = c * dot u v.
Proof.
  revert v. induction u as [|x u IH]; intros [|y v]; simpl fmap.
  - rewrite !dot_nil_l. lra.
  - rewrite !dot_nil_l. lra.
  - rewrite !dot_nil_r. lra.
  - rewrite !dot_cons, IH. lra.
Qed.

Lemma norm_scale (c : R) (v : list R) :
  0 < c -> norm (Rmult c <$> v) = c * norm v.
Proof.
  intros Hc. unfold norm. simpl. rewrite dot_scale_l, dot_scale_r.
  rewrite <- Rmult_assoc, sqrt_mult by (first [nra | apply dot_self_nonneg]).
  by rewrite sqrt_square by lra.
Qed.

Lemma cosine_scale (c : R) (v row : list R) :
  0 < c -> norm v <> 0 ->
  cosine (norm (Rmult c <$> v)) (Rmult c <$> v) row = cosine (norm v) v row.
Proof.
  intros Hc Hv. unfold cosine. rewrite norm_scale, dot_scale_l by done.
  destruct (fgtb (norm row) fzero) eqn:Hrow; [|reflexivity].
  apply exact_fgtb in Hrow. simpl in *. field. lra.
Qed.

End Exact.

(** ** On operands that fit, narrowing the shape changes nothing *)

Section CdefAgreement.
Context {F : Type} `{Arith F}.

Lemma c_int_fits (n : nat) : fits_c_int n = true -> c_int n = Z.of_nat n.
Proof.
  unfold fits_c_int, c_int. intros Hn%Z.ltb_lt.
  rewrite Z.mod_small by lia. lia.
Qed.

Lemma int_sized_fits (m : ndarray2 F) :
  int_sized m = true -> fits_c_int (shape0 m) = true /\ fits_c_int (shape1 m) = true.
Proof. unfold int_sized, shape0, shape1. by intros ?%andb_prop. Qed.

Lemma np_zeros_nat (n : nat) : Cdef.np_zeros (Z.of_nat n) = Returned (zeros1 n).
Proof.
  unfold Cdef.np_zeros. destruct (Z.ltb_spec (Z.of_nat n) 0); [lia|].
  by rewrite Nat2Z.id.
Qed.

Lemma np_zeros2_nat (n k : nat) :
  Cdef.np_zeros2 (Z.of_nat n) (Z.of_nat k) = Returned (zeros2 n k).
Proof.
  unfold Cdef.np_zeros2.
  destruct (Z.ltb_spec (Z.of_nat n) 0); [lia|].
  destruct (Z.ltb_spec (Z.of_nat k) 0); [lia|].
  by rewrite !Nat2Z.id.
Qed.

Lemma cdef_user_similarity_agrees (m : ndarray2 F) (v : list F) :
  int_sized m = true ->
  Cdef.compute_user_similarity_matrix m v = compute_user_similarity_matrix m v.
Proof.
  intros [H0 H1]%int_sized_fits.
  unfold Cdef.compute_user_similarity_matrix, compute_user_similarity_matrix,
    Cdef.c_range.
  by rewrite (c_int_fits _ H0), (c_int_fits _ H1), np_zeros_nat, !Nat2Z.id.
Qed.

Lemma cdef_product_similarity_agrees (liked product : ndarray2 F) :
  int_sized liked = true ->
  Cdef.compute_product_similarity liked product
  = compute_product_similarity liked product.
Proof.
  intros [H0 H1]%int_sized_fits.
  unfold Cdef.compute_product_similarity, compute_product_similarity, Cdef.c_range.
  by rewrite (c_int_fits _ H0), (c_int_fits _ H1), np_zeros_nat, !Nat2Z.id.
Qed.

Lemma cdef_dot_product_batch_agrees (a b : ndarray2 F) :
  int_sized a = true -> fits_c_int (shape0 b) = true ->
  Cdef.compute_dot_product_batch a b = compute_dot_product_batch a b.
Proof.
  intros [H0 H1]%int_sized_fits Hb.
  unfold Cdef.compute_dot_product_batch, compute_dot_product_batch, Cdef.c_range.
  by rewrite (c_int_fits _ H0), (c_int_fits _ H1), (c_int_fits _ Hb),
    np_zeros2_nat, !Nat2Z.id.
Qed.

(** A table whose rows are all the same row. *)
(** The two similarity routines narrow the same shape entries, so they
    agree on a table of any size. *)
Lemma cdef_product_similarity_as_user (liked_features product_features : ndarray2 F) :
  Cdef.compute_product_similarity liked_features product_features =
  Cdef.compute_user_similarity_matrix liked_features
    (reference_row product_features).
Proof.
  unfold Cdef.compute_product_similarity, Cdef.compute_user_similarity_matrix,
    Cdef.c_range.
  destruct (Cdef.np_zeros _) as [zs| | |]; simpl; try reflexivity.
  erewrite for_range_ext; last first.
  { intros j acc _. rewrite get2_reference_row. reflexivity. }
  destruct (for_range _ _ fzero) as [nsq| | |]; simpl; try reflexivity.
  destruct (feqb (fsqrt nsq) fzero); [reflexivity|].
  apply for_range_ext. intros i sims _.
  f_equal. apply for_range_ext. intros j [d n] _.
  by rewrite get2_reference_row.
Qed.

Lemma wf_constant_rows (n p : nat) (row : list F) :
  length row = p -> wf (Ndarray2 (replicate n row) p) = true.
Proof.
  intros Hp. unfold wf. apply forallb_forall.
  intros r Hr%list_elem_of_In%elem_of_replicate.
  destruct Hr as [-> _]. simpl. by apply Nat.eqb_eq.
Qed.

Lemma fits_c_int_le (n n' : nat) :
  n <= n' -> fits_c_int n' = true -> fits_c_int n = true.
Proof. unfold fits_c_int. intros Hle Hn%Z.ltb_lt. apply Z.ltb_lt. lia. Qed.

Lemma int_sized_slices (rows1 rows2 : list (list F)) (p : nat) :
  int_sized (Ndarray2 (rows1 ++ rows2) p) = true ->
  int_sized (Ndarray2 rows1 p) = true /\ int_sized (Ndarray2 rows2 p) = true.
Proof.
  unfold int_sized. simpl. intros [Hr Hp]%andb_prop. rewrite length_app in Hr.
  rewrite Hp, !andb_true_r.
  split.
  - apply (fits_c_int_le (length rows1) (length rows1 + length rows2)); [lia|done].
  - apply (fits_c_int_le (length rows2) (length rows1 + length rows2)); [lia|done].
Qed.

Lemma c_int_2_31 (n : nat) : Z.of_nat n = (2 ^ 31)%Z -> c_int n = (- 2 ^ 31)%Z.
Proof. unfold c_int. by intros ->. Qed.


(** With 2^31 rows the row count narrows to a negative [int], which
    [np.zeros] refuses before anything is computed. *)
Lemma cdef_user_similarity_2_31_rows (m : ndarray2 F) (v : list F) :
  Z.of_nat (shape0 m) = (2 ^ 31)%Z ->
  Cdef.compute_user_similarity_matrix m v = ValueError.
Proof.
  intros Hn. unfold Cdef.compute_user_similarity_matrix.
  by rewrite (c_int_2_31 _ Hn).
Qed.

Lemma cdef_product_similarity_2_31_rows (liked product : ndarray2 F) :
  Z.of_nat (shape0 liked) = (2 ^ 31)%Z ->
  Cdef.compute_product_similarity liked product = ValueError.
Proof.
  intros Hn. unfold Cdef.compute_product_similarity.
  by rewrite (c_int_2_31 _ Hn).
Qed.



End CdefAgreement.

(** * Properties of the specification *)

Section GenericClaims.
Context {F : Type} `{Arith F}.

Lemma dot_table_get2 (matrix_a matrix_b : ndarray2 F) (i j : nat) (ra rb : list F) :
  rows matrix_a !! i = Some ra -> rows matrix_b !! j = Some rb ->
  get2 (dot_table matrix_a matrix_b) i j
  = Returned (dot ra (take (shape1 matrix_a) rb)).
Proof.
  intros Hra Hrb. unfold get2, dot_table. simpl.
  rewrite list_lookup_fmap, Hra. simpl.
  apply get1_lookup. by rewrite list_lookup_fmap, Hrb.
Qed.



(** C5.  [compute_product_similarity] on a second matrix whose row 0 is [v]
    (in particular a 1 x F matrix holding [v]) computes exactly
    [compute_user_similarity_matrix] on the vector [v]. *)
Theorem C5_product_similarity_is_user_similarity
    (liked_features product_features : ndarray2 F) (v : list F) :
  rows product_features !! 0 = Some v ->
  compute_product_similarity liked_features product_features
  = compute_user_similarity_matrix liked_features v.
Proof.
  intros Hv. rewrite product_similarity_as_user.
  unfold reference_row. by rewrite Hv.
Qed.


End GenericClaims.


Section LawfulClaims.
Context {F : Type} `{ArithLaws F}.


(** Run on the shape entries themselves.
    For a matrix of shape U x P and a vector of length P whose norm is
    nonzero, [compute_user_similarity_matrix] returns a vector of length U
    whose element i, for each row i whose norm is a nonzero number, is
    [dot(vector, row) / (norm(vector) * norm(row))]: the cosine similarity
    of the vector and row i.  ([feqb x x] holds of every real and of every
    binary64 value but NaN.) *)
Lemma user_similarity_is_cosine (m : ndarray2 F) (v : list F) :
  wf m = true -> length v = shape1 m ->
  feqb (norm v) fzero = false ->
  exists r,
    compute_user_similarity_matrix m v = Returned r
    /\ length r = shape0 m
    /\ forall i row,
         rows m !! i = Some row ->
         feqb (norm row) fzero = false -> feqb (norm row) (norm row) = true ->
         r !! i = Some (fdiv (dot v row) (fmul (norm v) (norm row))).
Proof.
  intros Hwf Hlen Hv. rewrite (user_similarity_total m v Hwf Hlen), Hv.
  eexists. split; [reflexivity|]. split; [by rewrite length_fmap|].
  intros i row Hrow Hnz Hnum. rewrite list_lookup_fmap, Hrow. simpl.
  unfold cosine. unfold norm in *. by rewrite (fsqrt_positive _ Hnz Hnum).
Qed.

(** Run on the shape entries themselves.
    With matching dimensions
    [compute_user_similarity_matrix] always returns and never divides by
    zero: when the norm of the reference vector compares equal to zero the
    result is U zeros; when row i has zero norm, element i is 0; and an
    element is either that initial 0 or the quotient
    [dot / (norm_user * norm_other)], taken only with [norm_user] nonzero
    (positive whenever it is a number), [norm_other] positive and their
    product nonzero. *)
Lemma division_guarded (m : ndarray2 F) (v : list F) :
  wf m = true -> length v = shape1 m ->
  exists r,
    compute_user_similarity_matrix m v = Returned r
    /\ length r = shape0 m
    /\ (feqb (norm v) fzero = true -> r = zeros1 (shape0 m))
    /\ forall i row,
         rows m !! i = Some row ->
         (feqb (norm row) fzero = true -> r !! i = Some fzero)
         /\ (r !! i = Some fzero
             \/ (feqb (norm v) fzero = false
                 /\ (feqb (norm v) (norm v) = true -> fgtb (norm v) fzero = true)
                 /\ fgtb (norm row) fzero = true
                 /\ feqb (fmul (norm v) (norm row)) fzero = false
                 /\ r !! i = Some (fdiv (dot v row) (fmul (norm v) (norm row))))).
Proof.
  intros Hwf Hlen. rewrite (user_similarity_total m v Hwf Hlen).
  eexists. split; [reflexivity|].
  destruct (feqb (norm v) fzero) eqn:Hv.
  - split; [apply length_replicate|]. split; [done|].
    intros i row Hrow.
    assert (zeros1 (shape0 m) !! i = Some fzero) as Hz.
    { apply lookup_replicate_2. by eapply lookup_lt_Some. }
    split; [done|by left].
  - split; [by rewrite length_fmap|]. split; [done|].
    intros i row Hrow. rewrite list_lookup_fmap, Hrow. simpl. unfold cosine.
    destruct (fgtb (norm row) fzero) eqn:Hgt.
    + split.
      * intros Hz. by rewrite (fgtb_nonzero _ Hgt) in Hz.
      * right. repeat split; try done.
        -- apply fsqrt_positive, Hv.
        -- apply fsqrt_mul_nonzero; done.
    + split; [done|by left].
Qed.


End LawfulClaims.

Section ExactClaims.
Local Open Scope R_scope.

(** C6, as amended.  In exact real arithmetic, scaling the reference vector
    by a positive [c] leaves every element of the similarity vector
    unchanged. *)
Theorem C6_scale_invariance_exact (m : ndarray2 R) (v : list R) (c : R) :
  wf m = true -> length v = shape1 m -> 0 < c ->
  compute_user_similarity_matrix m (Rmult c <$> v)
  = compute_user_similarity_matrix m v.
Proof.
  intros Hwf Hlen Hc.
  rewrite (user_similarity_total m v Hwf Hlen).
  rewrite (user_similarity_total m (Rmult c <$> v) Hwf) by (by rewrite length_fmap).
  f_equal. rewrite (norm_scale c v Hc).
  destruct (feqb (norm v) fzero) eqn:Hv.
  - apply exact_feqb in Hv. simpl in Hv.
    replace (feqb (c * norm v) fzero) with true; [done|].
    symmetry. apply exact_feqb. simpl. rewrite Hv. lra.
  - apply exact_feqb_false in Hv. simpl in Hv.
    replace (feqb (c * norm v) fzero) with false.
    + apply list_fmap_ext. intros i row _.
      rewrite <- (norm_scale c v Hc). by apply cosine_scale.
    + symmetry. apply exact_feqb_false. simpl.
      intros [?|?]%Rmult_integral; lra.
Qed.

(** C7, as amended.  In exact real arithmetic every element returned by
    [compute_user_similarity_matrix] and by [compute_product_similarity]
    lies in [-1, 1]: a quotient is bounded by the Cauchy-Schwarz inequality
    and every other element is 0. *)
Theorem C7_range_exact :
  (forall (m : ndarray2 R) (v : list R),
     wf m = true -> length v = shape1 m ->
     exists r,
       compute_user_similarity_matrix m v = Returned r
       /\ Forall (fun x => -1 <= x <= 1) r)
  /\ (forall liked product : ndarray2 R,
        wf liked = true -> wf product = true ->
        shape0 product = 1%nat -> shape1 product = shape1 liked ->
        exists r,
          compute_product_similarity liked product = Returned r
          /\ Forall (fun x => -1 <= x <= 1) r).
Proof.
  assert (Huser : forall (m : ndarray2 R) (v : list R),
     wf m = true -> length v = shape1 m ->
     exists r,
       compute_user_similarity_matrix m v = Returned r
       /\ Forall (fun x => -1 <= x <= 1) r).
  { intros m v Hwf Hlen. rewrite (user_similarity_total m v Hwf Hlen).
    eexists. split; [reflexivity|].
    destruct (feqb (norm v) fzero) eqn:Hv.
    - apply Forall_forall. intros x Hx%elem_of_replicate. destruct Hx as [-> _].
      simpl. lra.
    - apply exact_feqb_false in Hv. apply Forall_fmap, Forall_forall.
      intros row _. simpl. by apply cosine_range. }
  split; [exact Huser|].
  intros liked product Hl Hp Hone Hcols.
  destruct (lookup_lt_is_Some_2 (rows product) 0) as [v Hv];
    [unfold shape0 in Hone; lia|].
  rewrite product_similarity_as_user. unfold reference_row. rewrite Hv. simpl.
  apply Huser; [done|]. by rewrite (wf_row_length _ _ _ Hp Hv).
Qed.

End ExactClaims.

(** ** Binary64 runs against the original wording of C2, C6 and C7 *)


(** C6 as stated fails: against the matrix [[1]], the finite vector [2^600]
    has similarity 0 (its squared norm overflows), while the same vector
    scaled by the positive 2^-600 has similarity 1. *)
Lemma C6_counterexample :
  let m := Examples.unit_matrix in
  let v := [Examples.huge] in
  let c := Examples.tiny_scale in
  wf m = true /\ length v = shape1 m
  /\ PrimFloat.ltb 0 c = true
  /\ PrimFloat.is_finite Examples.huge = true
  /\ compute_user_similarity_matrix m v = Returned [0%float]
  /\ compute_user_similarity_matrix m (PrimFloat.mul c <$> v) = Returned [1%float]
  /\ PrimFloat.eqb 0 1 = false.
Proof. repeat split. Qed.

(** C7 as stated fails: against the matrix [[1]], the finite nonzero vector
    [1.21875 * 2^-537] has a square that rounds down to 2^-1074, so its
    computed norm is 2^-537 and the returned similarity is 1.21875. *)
Lemma C7_counterexample :
  let m := Examples.unit_matrix in
  let v := [Examples.small] in
  wf m = true /\ length v = shape1 m
  /\ PrimFloat.is_finite Examples.small = true
  /\ PrimFloat.eqb Examples.small 0 = false
  /\ compute_user_similarity_matrix m v = Returned [0x1.38p0%float]
  /\ PrimFloat.ltb 0x1.2p0 0x1.38p0 = true.
Proof. repeat split. Qed.


Lemma C5_witness :
  rows Examples.product_one !! 0 = Some Examples.reference
  /\ compute_product_similarity Examples.users Examples.product_one
     = compute_user_similarity_matrix Examples.users Examples.reference.
Proof.
  split; [reflexivity|].
  apply (C5_product_similarity_is_user_similarity
           Examples.users Examples.product_one Examples.reference).
  reflexivity.
Defined.

Lemma C6_witness :
  wf Examples.users_exact = true
  /\ length Examples.reference_exact = shape1 Examples.users_exact
  /\ (0 < 2)%R
  /\ compute_user_similarity_matrix Examples.users_exact
       (Rmult 2 <$> Examples.reference_exact)
     = compute_user_similarity_matrix Examples.users_exact Examples.reference_exact.
Proof.
  split; [reflexivity|]. split; [reflexivity|]. split; [lra|].
  apply (C6_scale_invariance_exact Examples.users_exact Examples.reference_exact 2);
    [reflexivity|reflexivity|lra].
Defined.

Lemma C7_witness :
  wf Examples.users_exact = true
  /\ length Examples.reference_exact = shape1 Examples.users_exact
  /\ exists r,
       compute_user_similarity_matrix Examples.users_exact Examples.reference_exact
         = Returned r
       /\ Forall (fun x => (-1 <= x <= 1)%R) r.
Proof.
  split; [reflexivity|]. split; [reflexivity|].
  apply (proj1 C7_range_exact Examples.users_exact Examples.reference_exact);
    reflexivity.
Defined.

(** * Further properties of the three routines *)

(** ** Failures, and how the routines decompose over rows *)

Section RowwiseGeneric.
Context {F : Type} `{Arith F}.

Lemma for_each_no_division_error {S : Type} (idxs : list nat)
    (body : nat -> S -> result S) (s : S) :
  (forall i s', body i s' <> ZeroDivisionError) ->
  for_each idxs body s <> ZeroDivisionError.
Proof.
  intros Hbody. revert s. induction idxs as [|i rest IH]; intros s; simpl; [done|].
  destruct (body i s) as [s'| | |] eqn:Hs; simpl; [apply IH| |done|done].
  by destruct (Hbody i s).
Qed.

Lemma get2_no_division_error (m : ndarray2 F) (i j : nat) :
  get2 m i j <> ZeroDivisionError.
Proof.
  unfold get2, get1. destruct (rows m !! i) as [r|]; [|done].
  by destruct (r !! j).
Qed.

Lemma dot_product_batch_no_division_error (matrix_a matrix_b : ndarray2 F) :
  compute_dot_product_batch matrix_a matrix_b <> ZeroDivisionError.
Proof.
  unfold compute_dot_product_batch, for_range.
  apply for_each_no_division_error. intros i res.
  apply for_each_no_division_error. intros j res'.
  match goal with
  | |- (?loop ≫= _) <> _ =>
      assert (loop <> ZeroDivisionError) as Hloop;
      [|by destruct loop]
  end.
  apply for_each_no_division_error. intros idx acc.
  pose proof (get2_no_division_error matrix_a i idx) as Ha.
  pose proof (get2_no_division_error matrix_b j idx) as Hb.
  destruct (get2 matrix_a i idx); simpl; try done.
  by destruct (get2 matrix_b j idx).
Qed.


Section Commutative.
Hypothesis fmul_comm : forall x y : F, fmul x y = fmul y x.

Lemma dot_comm (u v : list F) : dot u v = dot v u.
Proof.
  unfold dot. generalize (@fzero F _). revert v.
  induction u as [|x u IH]; intros [|y v] acc; simpl; try reflexivity.
  rewrite (fmul_comm x y). apply IH.
Qed.


End Commutative.
End RowwiseGeneric.

Section RowwiseLawful.
Context {F : Type} `{ArithLaws F}.

(** X1.  No call raises [ZeroDivisionError]: the similarity routines on any
    matrix and any reference operand, the batch dot product on any two
    operands.  The guarded product of the two norms is never zero, and an
    operand of the wrong size changes nothing to that. *)
Theorem X1_no_division_by_zero :
  (forall (m : ndarray2 F) (v : list F),
     wf m = true -> compute_user_similarity_matrix m v <> ZeroDivisionError)
  /\ (forall liked product : ndarray2 F,
        wf liked = true ->
        compute_product_similarity liked product <> ZeroDivisionError)
  /\ (forall a b : ndarray2 F, compute_dot_product_batch a b <> ZeroDivisionError).
Proof.
  assert (Huser : forall (m : ndarray2 F) (v : list F),
     wf m = true -> compute_user_similarity_matrix m v <> ZeroDivisionError).
  { intros m v Hwf. destruct (decide (length v < shape1 m)) as [Hlt|Hge].
    - by rewrite user_similarity_short.
    - rewrite user_similarity_take, user_similarity_total; [done|done|].
      rewrite length_take. lia. }
  split; [exact Huser|]. split.
  - intros liked product Hwf. rewrite product_similarity_as_user. by apply Huser.
  - apply dot_product_batch_no_division_error.
Qed.

(** Run on the shape entries themselves.
    The similarity routine works row by row: on the rows of one table
    followed by the rows of another it returns the similarities of the
    first followed by those of the second, so a table can be processed in
    slices. *)
Lemma user_similarity_rows_concatenate (rows1 rows2 : list (list F))
    (p : nat) (v : list F) :
  wf (Ndarray2 (rows1 ++ rows2) p) = true -> length v = p ->
  exists r1 r2,
    compute_user_similarity_matrix (Ndarray2 rows1 p) v = Returned r1
    /\ compute_user_similarity_matrix (Ndarray2 rows2 p) v = Returned r2
    /\ compute_user_similarity_matrix (Ndarray2 (rows1 ++ rows2) p) v
       = Returned (r1 ++ r2).
Proof.
  intros Hwf Hlen.
  assert (wf (Ndarray2 rows1 p) = true /\ wf (Ndarray2 rows2 p) = true) as [H1 H2].
  { unfold wf in *. simpl in *. rewrite forallb_app in Hwf.
    by apply andb_prop in Hwf. }
  rewrite !user_similarity_total by done. do 2 eexists.
  split; [reflexivity|]. split; [reflexivity|]. f_equal.
  unfold shape0. simpl. destruct (feqb (norm v) fzero).
  - unfold zeros1. by rewrite length_app, replicate_add.
  - by rewrite fmap_app.
Qed.

(** Run on the shape entries themselves.
    With a commutative multiplication (binary64 has one), similarity
    is symmetric: for two rows of positive norm of the same table, the
    similarity of row i to the reference row j is the similarity of row j
    to the reference row i, as the same value. *)
Lemma similarity_symmetric (m : ndarray2 F) (i j : nat) (ri rj : list F) :
  (forall x y : F, fmul x y = fmul y x) ->
  wf m = true ->
  rows m !! i = Some ri -> rows m !! j = Some rj ->
  fgtb (norm ri) fzero = true -> fgtb (norm rj) fzero = true ->
  exists r r' x,
    compute_user_similarity_matrix m rj = Returned r
    /\ compute_user_similarity_matrix m ri = Returned r'
    /\ r !! i = Some x /\ r' !! j = Some x.
Proof.
  intros Hcomm Hwf Hi Hj Hgi Hgj.
  rewrite (user_similarity_total m rj Hwf (wf_row_length _ _ _ Hwf Hj)).
  rewrite (user_similarity_total m ri Hwf (wf_row_length _ _ _ Hwf Hi)).
  rewrite (fgtb_nonzero _ Hgi), (fgtb_nonzero _ Hgj).
  do 2 eexists. exists (cosine (norm rj) rj ri).
  split; [reflexivity|]. split; [reflexivity|].
  rewrite !list_lookup_fmap, Hi, Hj. simpl. split; [reflexivity|].
  unfold cosine. rewrite Hgi, Hgj.
  by rewrite (dot_comm Hcomm ri rj), (Hcomm (norm ri) (norm rj)).
Qed.

End RowwiseLawful.

(** ** Binary64: commutativity, NaN and underflow *)

Section Binary64Values.

Lemma float_mul_comm (x y : float) : PrimFloat.mul x y = PrimFloat.mul y x.
Proof.
  apply Prim2SF_inj. rewrite !mul_spec. unfold SF64mul, SFmul.
  destruct (Prim2SF x) as [sx|sx| |sx mx ex], (Prim2SF y) as [sy|sy| |sy my ey];
    try reflexivity; try (by rewrite (xorb_comm sx sy)).
  by rewrite (xorb_comm sx sy), (Pos.mul_comm mx my), (Z.add_comm ex ey).
Qed.

(** A value is NaN exactly when its specification is [S754_nan]. *)
Lemma is_nan_Prim2SF (x : float) :
  PrimFloat.is_nan x = true <-> Prim2SF x = S754_nan.
Proof.
  unfold Prim2SF. destruct (PrimFloat.is_nan x); [done|].
  split; [done|]. intros Hx. exfalso.
  destruct (is_zero x); [done|]. destruct (is_infinity x); [done|].
  destruct (FloatOps.Z.frexp x) as [r e].
  destruct (shr_fexp _ _ _ _ _) as [mrs e'].
  by destruct (shr_m mrs).
Qed.

(** Once an accumulator is NaN it stays NaN. *)
Lemma dot_step_nan (l : list (float * float)) (acc : float) :
  Prim2SF acc = S754_nan ->
  Prim2SF (foldl (fun a p => fadd a (fmul p.1 p.2)) acc l) = S754_nan.
Proof.
  revert acc. induction l as [|p l IH]; intros acc Hacc; [done|].
  simpl foldl. apply IH. rewrite add_spec, Hacc. reflexivity.
Qed.

Lemma SFadd_nan_r (x : spec_float) : SF64add x S754_nan = S754_nan.
Proof. by destruct x. Qed.

Lemma SFmul_nan_l (y : spec_float) : SF64mul S754_nan y = S754_nan.
Proof. reflexivity. Qed.

Lemma SFmul_nan_r (x : spec_float) : SF64mul x S754_nan = S754_nan.
Proof. by destruct x. Qed.

(** A NaN entry of [u], at an index [v] also has, makes [dot u v] NaN. *)
Lemma dot_nan_l (u v : list float) (k : nat) (x : float) :
  u !! k = Some x -> PrimFloat.is_nan x = true -> k < length v ->
  Prim2SF (dot u v) = S754_nan.
Proof.
  intros Hk Hx%is_nan_Prim2SF. unfold dot. generalize (@fzero float _).
  revert k v Hk. induction u as [|a u IH]; intros k v Hk acc Hlen; [done|].
  destruct v as [|b v]; [simpl in Hlen; lia|]. simpl.
  destruct k as [|k].
  - injection Hk as ->. apply dot_step_nan.
    rewrite add_spec, mul_spec, Hx, SFmul_nan_l. apply SFadd_nan_r.
  - apply (IH k); [done|simpl in Hlen; lia].
Qed.

Lemma dot_nan_self (u : list float) (x : float) :
  x ∈ u -> PrimFloat.is_nan x = true -> Prim2SF (dot u u) = S754_nan.
Proof.
  intros [k Hk]%list_elem_of_lookup_1 Hx.
  apply (dot_nan_l u u k x Hk Hx). by eapply lookup_lt_Some.
Qed.

Lemma norm_nan (u : list float) :
  Prim2SF (dot u u) = S754_nan -> Prim2SF (norm u) = S754_nan.
Proof. intros Hd. unfold norm. simpl fsqrt. by rewrite sqrt_spec, Hd. Qed.

Lemma nan_not_positive (x : float) :
  Prim2SF x = S754_nan -> fgtb x fzero = false.
Proof. intros Hx. simpl. by rewrite ltb_spec, Hx. Qed.

Lemma nan_not_zero (x : float) :
  Prim2SF x = S754_nan -> feqb x fzero = false.
Proof. intros Hx. simpl. by rewrite eqb_spec, Hx. Qed.

(** Run on the shape entries themselves.
    Binary64: a NaN anywhere in row i of the table is masked, the
    returned element i being 0 whatever the reference vector: the row norm
    is NaN, and [norm_other > 0.0] is false for a NaN. *)
Lemma nan_row_gives_zero (m : ndarray2 float) (v : list float)
    (i : nat) (row : list float) (x : float) :
  wf m = true -> length v = shape1 m ->
  rows m !! i = Some row -> x ∈ row -> PrimFloat.is_nan x = true ->
  exists r,
    compute_user_similarity_matrix m v = Returned r
    /\ r !! i = Some 0%float.
Proof.
  intros Hwf Hlen Hrow Hin Hx.
  rewrite (user_similarity_total m v Hwf Hlen). eexists. split; [reflexivity|].
  destruct (feqb (norm v) fzero).
  - apply lookup_replicate_2. by eapply lookup_lt_Some.
  - rewrite list_lookup_fmap, Hrow. simpl. unfold cosine.
    by rewrite (nan_not_positive _ (norm_nan _ (dot_nan_self _ _ Hin Hx))).
Qed.

(** Run on the shape entries themselves.
    Binary64: a NaN anywhere in the reference vector is not masked.
    Its norm is NaN, which does not compare equal to zero, so the early
    return is not taken and every row of positive norm gets a NaN. *)
Lemma nan_reference_gives_nan (m : ndarray2 float) (v : list float)
    (i : nat) (row : list float) (x : float) :
  wf m = true -> length v = shape1 m ->
  x ∈ v -> PrimFloat.is_nan x = true ->
  rows m !! i = Some row -> fgtb (norm row) fzero = true ->
  exists r q,
    compute_user_similarity_matrix m v = Returned r
    /\ r !! i = Some q /\ PrimFloat.is_nan q = true.
Proof.
  intros Hwf Hlen Hin Hx Hrow Hgt.
  rewrite (user_similarity_total m v Hwf Hlen).
  rewrite (nan_not_zero _ (norm_nan _ (dot_nan_self _ _ Hin Hx))).
  do 2 eexists. split; [reflexivity|].
  rewrite list_lookup_fmap, Hrow. simpl. unfold cosine. rewrite Hgt.
  split; [reflexivity|]. apply is_nan_Prim2SF.
  destruct (list_elem_of_lookup_1 _ _ Hin) as [k Hk].
  simpl fdiv. rewrite div_spec, (dot_nan_l v row k x Hk Hx); [reflexivity|].
  rewrite (wf_row_length _ _ _ Hwf Hrow). apply lookup_lt_Some in Hk.
  unfold shape1 in *. lia.
Qed.

(** The square of a value, when it compares equal to zero, is [+0]. *)
Lemma square_zero_positive (x : float) :
  PrimFloat.eqb (PrimFloat.mul x x) 0 = true ->
  Prim2SF (PrimFloat.mul x x) = S754_zero false.
Proof.
  rewrite eqb_spec, mul_spec. change (Prim2SF 0) with (S754_zero false).
  unfold SF64mul, SFmul.
  destruct (Prim2SF x) as [[]|[]| |sx mx ex]; try done.
  pose proof (binary_round_aux_shape (xorb sx sx) (Zpos (mx * mx)) (ex + ex)
                loc_Exact) as Hs.
  destruct (binary_round_aux _ _ _ _ _ _) as [s|[]| |[] ? ?]; try done.
  intros _. rewrite Hs. by destruct sx.
Qed.

(** A vector all of whose squares vanish has a zero sum of squares. *)
Lemma dot_self_underflow (u : list float) :
  (forall x, x ∈ u -> PrimFloat.eqb (PrimFloat.mul x x) 0 = true) ->
  Prim2SF (dot u u) = S754_zero false.
Proof.
  unfold dot. assert (Prim2SF (@fzero float _) = S754_zero false) as Hacc by done.
  revert Hacc. generalize (@fzero float _).
  induction u as [|a u IH]; intros acc Hacc Hu; [done|].
  simpl. apply IH.
  - rewrite add_spec, Hacc, (square_zero_positive a); [reflexivity|].
    apply Hu. by left.
  - intros x Hx. apply Hu. by right.
Qed.

Lemma norm_underflow (u : list float) :
  (forall x, x ∈ u -> PrimFloat.eqb (PrimFloat.mul x x) 0 = true) ->
  Prim2SF (norm u) = S754_zero false.
Proof.
  intros Hu. unfold norm. simpl fsqrt.
  by rewrite sqrt_spec, (dot_self_underflow u Hu).
Qed.

Lemma zero_compares_zero (x : float) :
  Prim2SF x = S754_zero false -> feqb x fzero = true /\ fgtb x fzero = false.
Proof. intros Hx. simpl. by rewrite eqb_spec, ltb_spec, Hx. Qed.

(** Run on the shape entries themselves.
    Binary64: a reference vector every square of which is zero, be it
    all zeros or nonzero entries so small that their squares underflow, has
    a computed norm of zero, and the routine returns U zeros for any
    table. *)
Lemma underflowing_reference_gives_zeros (m : ndarray2 float) (v : list float) :
  wf m = true -> length v = shape1 m ->
  (forall x, x ∈ v -> PrimFloat.eqb (PrimFloat.mul x x) 0 = true) ->
  compute_user_similarity_matrix m v = Returned (zeros1 (shape0 m)).
Proof.
  intros Hwf Hlen Hv. rewrite (user_similarity_total m v Hwf Hlen).
  by rewrite (proj1 (zero_compares_zero _ (norm_underflow v Hv))).
Qed.

(** Run on the shape entries themselves.
    Binary64: a table row every square of which is zero (all zeros, or
    entries whose squares underflow) gets similarity 0, whatever the
    reference vector. *)
Lemma underflowing_row_gives_zero (m : ndarray2 float) (v : list float)
    (i : nat) (row : list float) :
  wf m = true -> length v = shape1 m ->
  rows m !! i = Some row ->
  (forall x, x ∈ row -> PrimFloat.eqb (PrimFloat.mul x x) 0 = true) ->
  exists r,
    compute_user_similarity_matrix m v = Returned r
    /\ r !! i = Some 0%float.
Proof.
  intros Hwf Hlen Hrow Hsq.
  rewrite (user_similarity_total m v Hwf Hlen). eexists. split; [reflexivity|].
  destruct (feqb (norm v) fzero).
  - apply lookup_replicate_2. by eapply lookup_lt_Some.
  - rewrite list_lookup_fmap, Hrow. simpl. unfold cosine.
    by rewrite (proj2 (zero_compares_zero _ (norm_underflow row Hsq))).
Qed.

End Binary64Values.

(** ** Exact arithmetic: parallel and opposite vectors *)

Section ExactValues.
Local Open Scope R_scope.

Lemma norm_scale_neg (c : R) (v : list R) :
  c < 0 -> norm (Rmult c <$> v) = - c * norm v.
Proof.
  intros Hc. unfold norm. simpl. rewrite dot_scale_l, dot_scale_r.
  replace (c * (c * dot v v)) with ((- c) * (- c) * dot v v) by lra.
  rewrite sqrt_mult by (first [nra | apply dot_self_nonneg]).
  by rewrite sqrt_square by lra.
Qed.

Lemma cosine_scale_neg (c : R) (v row : list R) :
  c < 0 -> norm v <> 0 ->
  cosine (norm (Rmult c <$> v)) (Rmult c <$> v) row = - cosine (norm v) v row.
Proof.
  intros Hc Hv. unfold cosine. rewrite norm_scale_neg, dot_scale_l by done.
  destruct (fgtb (norm row) fzero) eqn:Hrow; [|simpl; lra].
  apply exact_fgtb in Hrow. simpl in *. field. lra.
Qed.

Lemma cosine_self (row : list R) :
  norm row <> 0 -> cosine (norm row) row row = 1.
Proof.
  intros Hrow. unfold cosine.
  assert (0 < norm row) as Hpos
    by (destruct (norm_nonneg row) as [?|Heq]; [done|congruence]).
  replace (fgtb (norm row) fzero) with true
    by (symmetry; apply exact_fgtb; exact Hpos).
  change (dot row row / (norm row * norm row) = 1).
  rewrite norm_square. unfold Rdiv. apply Rinv_r.
  rewrite <- norm_square. nra.
Qed.

(** X10.  In exact real arithmetic, a reference vector that is a positive
    multiple of row i of the table (row i itself for c = 1), that row having
    nonzero norm, has similarity exactly 1 to row i. *)
Theorem X10_parallel_similarity_is_one (m : ndarray2 R) (i : nat) (row : list R) (c : R) :
  wf m = true -> rows m !! i = Some row -> norm row <> 0 -> 0 < c ->
  exists r,
    compute_user_similarity_matrix m (Rmult c <$> row) = Returned r
    /\ r !! i = Some 1.
Proof.
  intros Hwf Hrow Hn Hc.
  assert (length (Rmult c <$> row) = shape1 m) as Hlen
    by (rewrite length_fmap; apply (wf_row_length _ _ _ Hwf Hrow)).
  rewrite (user_similarity_total m _ Hwf Hlen). eexists. split; [reflexivity|].
  replace (feqb (norm (Rmult c <$> row)) fzero) with false.
  - rewrite list_lookup_fmap, Hrow.
    change (Some (cosine (norm (Rmult c <$> row)) (Rmult c <$> row) row) = Some 1).
    by rewrite (cosine_scale c row row Hc Hn), (cosine_self row Hn).
  - symmetry. apply exact_feqb_false. rewrite (norm_scale c row Hc).
    change (c * norm row <> 0). intros [?|?]%Rmult_integral; [lra|done].
Qed.

(** X11.  In exact real arithmetic, scaling the reference vector by a
    negative [c] (negating it, for c = -1) negates every element of the
    similarity vector. *)
Theorem X11_negative_scaling_negates (m : ndarray2 R) (v : list R) (c : R) :
  wf m = true -> length v = shape1 m -> c < 0 ->
  exists r,
    compute_user_similarity_matrix m v = Returned r
    /\ compute_user_similarity_matrix m (Rmult c <$> v) = Returned (Ropp <$> r).
Proof.
  intros Hwf Hlen Hc.
  rewrite (user_similarity_total m v Hwf Hlen).
  rewrite (user_similarity_total m (Rmult c <$> v) Hwf) by (by rewrite length_fmap).
  eexists. split; [reflexivity|]. f_equal.
  rewrite (norm_scale_neg c v Hc).
  destruct (feqb (norm v) fzero) eqn:Hv.
  - apply exact_feqb in Hv. simpl in Hv.
    replace (feqb (- c * norm v) fzero) with true
      by (symmetry; apply exact_feqb; simpl; rewrite Hv; lra).
    unfold zeros1. rewrite fmap_replicate. simpl. by rewrite Ropp_0.
  - apply exact_feqb_false in Hv. simpl in Hv.
    replace (feqb (- c * norm v) fzero) with false.
    + rewrite <- list_fmap_compose. apply list_fmap_ext. intros k row _.
      change (cosine (- c * norm v) (Rmult c <$> v) row = - cosine (norm v) v row).
      rewrite <- (norm_scale_neg c v Hc). by apply cosine_scale_neg.
    + symmetry. apply exact_feqb_false. simpl.
      intros [?|?]%Rmult_integral; lra.
Qed.

End ExactValues.

(** ** The properties on the shape entries at concrete operands *)

Lemma X1_witness :
  wf Examples.users = true
  /\ compute_user_similarity_matrix Examples.users Examples.reference
     <> ZeroDivisionError.
Proof.
  split; [reflexivity|].
  apply (proj1 (@X1_no_division_by_zero float float64 float64_laws)).
  reflexivity.
Defined.

Lemma X10_witness :
  exists r,
    compute_user_similarity_matrix MoreExamples.table_exact (Rmult 2 <$> [3; 4]%R)
      = Returned r
    /\ r !! 0 = Some 1%R.
Proof.
  apply (X10_parallel_similarity_is_one MoreExamples.table_exact 0 [3; 4]%R 2);
    [reflexivity|reflexivity| |lra].
  change (sqrt (0 + 3 * 3 + 4 * 4) <> 0)%R.
  intros Hz. apply sqrt_eq_0 in Hz; lra.
Defined.

Lemma X11_witness :
  exists r,
    compute_user_similarity_matrix MoreExamples.table_exact [1; 3]%R = Returned r
    /\ compute_user_similarity_matrix MoreExamples.table_exact (Rmult (-1) <$> [1; 3]%R)
       = Returned (Ropp <$> r).
Proof.
  apply (X11_negative_scaling_negates MoreExamples.table_exact [1; 3]%R (-1));
    [reflexivity|reflexivity|lra].
Defined.

(** ** The batch dot product: columns, the similarity numerators, Gram tables *)

Section BatchMore.
Context {F : Type} `{Arith F}.


End BatchMore.

Section BatchLawful.
Context {F : Type} `{ArithLaws F}.

(** Run on the shape entries themselves.
    The numerator of a similarity is a batch dot product: for a row
    i of positive norm, element i of the similarity vector is entry (0, i)
    of the batch dot product of the one-row matrix holding the reference
    vector with the table, divided by the product of the two norms. *)
Lemma similarity_from_batch (m : ndarray2 F) (v : list F) (i : nat)
    (row : list F) :
  wf m = true -> length v = shape1 m ->
  feqb (norm v) fzero = false ->
  rows m !! i = Some row -> fgtb (norm row) fzero = true ->
  exists r t d,
    compute_user_similarity_matrix m v = Returned r
    /\ compute_dot_product_batch (Ndarray2 [v] (shape1 m)) m = Returned t
    /\ get2 t 0 i = Returned d
    /\ r !! i = Some (fdiv d (fmul (norm v) (norm row))).
Proof.
  intros Hwf Hlen Hv Hrow Hgt.
  rewrite (user_similarity_total m v Hwf Hlen), Hv.
  rewrite dot_product_batch_unfold.
  - do 3 eexists. split; [reflexivity|]. split; [reflexivity|]. split.
    + apply (dot_table_get2 (Ndarray2 [v] (shape1 m)) m 0 i v row); [reflexivity|done].
    + rewrite list_lookup_fmap, Hrow. simpl. unfold cosine. rewrite Hgt.
      rewrite take_ge; [reflexivity|].
      by rewrite (wf_row_length _ _ _ Hwf Hrow).
  - unfold wf. simpl. by rewrite Hlen, Nat.eqb_refl.
  - intros rb Hin. by rewrite (wf_elem_length _ _ Hwf Hin).
Qed.

End BatchLawful.

Section GramExact.
Local Open Scope R_scope.

(** X14.  In exact real arithmetic the batch dot product of a table with
    itself is a Gram table: its diagonal entries are nonnegative and every
    entry obeys the Cauchy-Schwarz bound against the two diagonal entries of
    its row and column. *)
Theorem X14_gram_table_exact (matrix_a : ndarray2 R) (i j : nat) :
  wf matrix_a = true ->
  (i < shape0 matrix_a)%nat -> (j < shape0 matrix_a)%nat ->
  exists t gij gii gjj,
    compute_dot_product_batch matrix_a matrix_a = Returned t
    /\ get2 t i j = Returned gij
    /\ get2 t i i = Returned gii
    /\ get2 t j j = Returned gjj
    /\ 0 <= gii /\ gij * gij <= gii * gjj.
Proof.
  intros Hwf Hi Hj.
  destruct (lookup_lt_is_Some_2 (rows matrix_a) i Hi) as [ri Hri].
  destruct (lookup_lt_is_Some_2 (rows matrix_a) j Hj) as [rj Hrj].
  pose proof (wf_row_length _ _ _ Hwf Hri) as Hli.
  pose proof (wf_row_length _ _ _ Hwf Hrj) as Hlj.
  exists (dot_table matrix_a matrix_a), (dot ri rj), (dot ri ri), (dot rj rj).
  split.
  { apply dot_product_batch_unfold; [done|]. intros rb Hin.
    by rewrite (wf_elem_length _ _ Hwf Hin). }
  rewrite (dot_table_get2 _ _ _ _ _ _ Hri Hrj), (dot_table_get2 _ _ _ _ _ _ Hri Hri),
    (dot_table_get2 _ _ _ _ _ _ Hrj Hrj).
  rewrite !take_ge by (unfold shape1; lia).
  split; [reflexivity|]. split; [reflexivity|]. split; [reflexivity|].
  split; [apply dot_self_nonneg|apply cauchy_schwarz].
Qed.

End GramExact.

Lemma X14_witness :
  exists t gij gii gjj,
    compute_dot_product_batch MoreExamples.table_exact MoreExamples.table_exact
      = Returned t
    /\ get2 t 0 1 = Returned gij
    /\ get2 t 0 0 = Returned gii
    /\ get2 t 1 1 = Returned gjj
    /\ (0 <= gii)%R /\ (gij * gij <= gii * gjj)%R.
Proof.
  apply (X14_gram_table_exact MoreExamples.table_exact 0 1);
    [reflexivity|vm_compute; lia|vm_compute; lia].
Defined.

(** * The routines as compiled *)

(** ** Binary64: when a quotient can be NaN *)

Section Binary64Quotient.
Local Open Scope Z_scope.

Lemma shr_fexp_mantissa_nonneg (m e : Z) (l : location) :
  0 <= m -> 0 <= shr_m (fst (shr_fexp prec emax m e l)).
Proof.
  intros Hm. unfold shr_fexp.
  rewrite shr_mantissa by (rewrite shr_m_record_of_loc; lia).
  rewrite shr_m_record_of_loc. apply Z.div_pos; [done|].
  apply Z.pow_pos_nonneg; lia.
Qed.

(** Rounding a nonnegative mantissa never gives NaN. *)
Lemma binary_round_aux_not_nan (s : bool) (m e : Z) (l : location) :
  0 <= m -> binary_round_aux prec emax s m e l <> S754_nan.
Proof.
  intros Hm. unfold binary_round_aux.
  pose proof (shr_fexp_mantissa_nonneg m e l Hm) as H1.
  destruct (shr_fexp prec emax m e l) as [mrs' e'] eqn:E1. simpl in H1.
  pose proof (round_nearest_even_ge (shr_m mrs') (loc_of_shr_record mrs')) as Hr.
  set (m2 := round_nearest_even (shr_m mrs') (loc_of_shr_record mrs')) in *.
  pose proof (shr_fexp_mantissa_nonneg m2 e' loc_Exact ltac:(lia)) as H2.
  destruct (shr_fexp prec emax m2 e' loc_Exact) as [mrs'' e''] eqn:E2. simpl in H2.
  destruct (shr_m mrs''); [done| |lia].
  by destruct (e'' <=? emax - prec).
Qed.

(** A zero or finite number divided by a finite or infinite one is not
    NaN. *)
Lemma SFdiv_not_nan (x y : spec_float) :
  match x with S754_zero _ | S754_finite _ _ _ => True | _ => False end ->
  match y with S754_infinity _ | S754_finite _ _ _ => True | _ => False end ->
  SF64div x y <> S754_nan.
Proof.
  destruct x as [sx|sx| |sx mx ex], y as [sy|sy| |sy my ey]; try done.
  intros _ _. unfold SF64div, SFdiv, SFdiv_core_binary.
  match goal with
  | |- context [IntDef.Z.div_eucl ?a ?b] =>
      assert (0 <= a) as Ha;
      [|pose proof (Z.div_pos a b Ha ltac:(lia)) as Hq; unfold Z.div in Hq;
        destruct (IntDef.Z.div_eucl a b) as [q r]]
  end.
  - destruct (_ - _ - _); [lia| |lia]. apply Z.shiftl_nonneg. lia.
  - by apply binary_round_aux_not_nan.
Qed.

(** The product of two square roots, the first neither zero nor NaN and
    the second positive, is finite or infinite. *)
Lemma SFmul_sqrt_shape (a b : float) :
  PrimFloat.eqb (PrimFloat.sqrt a) 0 = false ->
  PrimFloat.is_nan (PrimFloat.sqrt a) = false ->
  PrimFloat.ltb 0 (PrimFloat.sqrt b) = true ->
  match Prim2SF (PrimFloat.mul (PrimFloat.sqrt a) (PrimFloat.sqrt b)) with
  | S754_infinity _ | S754_finite _ _ _ => True
  | _ => False
  end.
Proof.
  intros Hnz Hnan Hpos.
  pose proof (float_sqrt_mul_nonzero a b Hnz Hpos) as Hprod.
  assert (Prim2SF (PrimFloat.sqrt a) <> S754_nan) as Hnn.
  { intros Hx%is_nan_Prim2SF. congruence. }
  revert Hnz Hpos Hprod Hnn.
  rewrite ltb_spec, !eqb_spec, mul_spec. change (Prim2SF 0) with (S754_zero false).
  pose proof (Prim2SF_valid (PrimFloat.sqrt a)) as Va.
  pose proof (Prim2SF_valid (PrimFloat.sqrt b)) as Vb.
  rewrite sqrt_spec in Va. rewrite sqrt_spec in Vb. rewrite !sqrt_spec.
  destruct (SF64sqrt (Prim2SF a)) as [?|sa| |sa ma ea];
    destruct (SF64sqrt (Prim2SF b)) as [?|sb| |sb mb eb]; try done.
  intros _ _ Hprod _.
  pose proof (binary_round_aux_not_nan (xorb sa sb) (Zpos (ma * mb)) (ea + eb)
                loc_Exact ltac:(lia)) as Hn.
  unfold SF64mul, SFmul in *.
  by destruct (binary_round_aux _ _ _ _ _ _).
Qed.

Lemma is_finite_Prim2SF (x : float) :
  PrimFloat.is_finite x = true ->
  match Prim2SF x with S754_zero _ | S754_finite _ _ _ => True | _ => False end.
Proof.
  unfold PrimFloat.is_finite, Prim2SF.
  destruct (PrimFloat.is_nan x); [done|].
  destruct (is_zero x); [done|].
  destruct (is_infinity x); [done|]. intros _.
  destruct (FloatOps.Z.frexp x) as [r e].
  destruct (shr_fexp _ _ _ _ _) as [mrs e'].
  by destruct (shr_m mrs).
Qed.

(** The quotient of the similarity routines is NaN only when the reference
    norm is NaN or the dot product is not finite. *)
Lemma float_quotient_nan (d a b : float) :
  PrimFloat.eqb (PrimFloat.sqrt a) 0 = false ->
  PrimFloat.ltb 0 (PrimFloat.sqrt b) = true ->
  PrimFloat.is_nan
    (PrimFloat.div d (PrimFloat.mul (PrimFloat.sqrt a) (PrimFloat.sqrt b))) = true ->
  PrimFloat.is_nan (PrimFloat.sqrt a) = true \/ PrimFloat.is_finite d = false.
Proof.
  intros Hnz Hpos Hq.
  destruct (PrimFloat.is_nan (PrimFloat.sqrt a)) eqn:Hnan; [by left|].
  destruct (PrimFloat.is_finite d) eqn:Hfin; [|by right].
  exfalso. apply is_nan_Prim2SF in Hq. rewrite div_spec in Hq.
  apply (SFdiv_not_nan _ _ (is_finite_Prim2SF d Hfin)
           (SFmul_sqrt_shape a b Hnz Hnan Hpos) Hq).
Qed.

End Binary64Quotient.

(** ** The claims about what a call returns, on the routines as compiled *)

Section CompiledGeneric.
Context {F : Type} `{Arith F}.






End CompiledGeneric.


Section CompiledLawful.
Context {F : Type} `{ArithLaws F}.

(** C1, as amended.  For a matrix of shape U x P with U and P below 2^31
    and a vector of length P whose norm is nonzero,
    [compute_user_similarity_matrix] returns a vector of length U whose
    element i, for each row i whose norm is a nonzero number, is
    [dot(vector, row) / (norm(vector) * norm(row))]: the cosine similarity
    of the vector and row i.  ([feqb x x] holds of every real and of every
    binary64 value but NaN.) *)
Theorem C1_user_similarity_is_cosine (m : ndarray2 F) (v : list F) :
  wf m = true -> int_sized m = true -> length v = shape1 m ->
  feqb (norm v) fzero = false ->
  exists r,
    Cdef.compute_user_similarity_matrix m v = Returned r
    /\ length r = shape0 m
    /\ forall i row,
         rows m !! i = Some row ->
         feqb (norm row) fzero = false -> feqb (norm row) (norm row) = true ->
         r !! i = Some (fdiv (dot v row) (fmul (norm v) (norm row))).
Proof.
  intros Hwf Hs Hlen Hv. rewrite (cdef_user_similarity_agrees _ _ Hs).
  by apply user_similarity_is_cosine.
Qed.


(** C9, as amended.  [compute_product_similarity] reads its second
    argument only in row 0: for a liked matrix with fewer than 2^31 rows
    and columns, two product matrices that have at least as many columns
    as the liked matrix and the same row 0 give the same result, a vector
    with one entry per liked row.  Rows after row 0 never influence it, and
    a product matrix with more than one row is accepted. *)
Theorem C9_product_similarity_reads_row_0
    (liked product1 product2 : ndarray2 F) (v : list F) :
  wf liked = true -> int_sized liked = true ->
  wf product1 = true -> wf product2 = true ->
  shape1 liked <= shape1 product1 -> shape1 liked <= shape1 product2 ->
  rows product1 !! 0 = Some v -> rows product2 !! 0 = Some v ->
  exists r,
    Cdef.compute_product_similarity liked product1 = Returned r
    /\ Cdef.compute_product_similarity liked product2 = Returned r
    /\ length r = shape0 liked.
Proof.
  intros Hwf Hs H1 H2 Hle1 Hle2 Hv1 Hv2.
  rewrite !(cdef_product_similarity_agrees _ _ Hs), !product_similarity_as_user.
  unfold reference_row. rewrite Hv1, Hv2. simpl.
  rewrite user_similarity_take.
  assert (length (take (shape1 liked) v) = shape1 liked) as Hlen.
  { rewrite length_take, (wf_row_length _ _ _ H1 Hv1). unfold shape1 in *. lia. }
  rewrite (user_similarity_total liked _ Hwf Hlen).
  eexists. split; [reflexivity|]. split; [reflexivity|].
  destruct (feqb _ fzero); [apply length_replicate|by rewrite length_fmap].
Qed.

(** X2.  For a table below 2^31 rows and columns, the similarity routine
    works row by row: on the rows of one table followed by the rows of
    another it returns the similarities of the first followed by those of
    the second, so a table can be processed in slices. *)
Theorem X2_user_similarity_rows_concatenate (rows1 rows2 : list (list F))
    (p : nat) (v : list F) :
  wf (Ndarray2 (rows1 ++ rows2) p) = true ->
  int_sized (Ndarray2 (rows1 ++ rows2) p) = true -> length v = p ->
  exists r1 r2,
    Cdef.compute_user_similarity_matrix (Ndarray2 rows1 p) v = Returned r1
    /\ Cdef.compute_user_similarity_matrix (Ndarray2 rows2 p) v = Returned r2
    /\ Cdef.compute_user_similarity_matrix (Ndarray2 (rows1 ++ rows2) p) v
       = Returned (r1 ++ r2).
Proof.
  intros Hwf Hs Hlen.
  destruct (int_sized_slices _ _ _ Hs) as [H1 H2].
  rewrite !cdef_user_similarity_agrees by done.
  by apply user_similarity_rows_concatenate.
Qed.

(** X5.  With a commutative multiplication (binary64 has one), on a table
    below 2^31 rows and columns, similarity is symmetric: for two rows of
    positive norm of the table, the similarity of row i to the reference
    row j is the similarity of row j to the reference row i, as the same
    value. *)
Theorem X5_similarity_symmetric (m : ndarray2 F) (i j : nat) (ri rj : list F) :
  (forall x y : F, fmul x y = fmul y x) ->
  wf m = true -> int_sized m = true ->
  rows m !! i = Some ri -> rows m !! j = Some rj ->
  fgtb (norm ri) fzero = true -> fgtb (norm rj) fzero = true ->
  exists r r' x,
    Cdef.compute_user_similarity_matrix m rj = Returned r
    /\ Cdef.compute_user_similarity_matrix m ri = Returned r'
    /\ r !! i = Some x /\ r' !! j = Some x.
Proof.
  intros Hcomm Hwf Hs Hi Hj Hgi Hgj.
  rewrite !(cdef_user_similarity_agrees _ _ Hs).
  by apply similarity_symmetric.
Qed.

(** X13.  The numerator of a similarity is a batch dot product: on a table
    below 2^31 rows and columns, for a row i of positive norm, element i
    of the similarity vector is entry (0, i) of the batch dot product of
    the one-row matrix holding the reference vector with the table,
    divided by the product of the two norms. *)
Theorem X13_similarity_from_batch (m : ndarray2 F) (v : list F) (i : nat)
    (row : list F) :
  wf m = true -> int_sized m = true -> length v = shape1 m ->
  feqb (norm v) fzero = false ->
  rows m !! i = Some row -> fgtb (norm row) fzero = true ->
  exists r t d,
    Cdef.compute_user_similarity_matrix m v = Returned r
    /\ Cdef.compute_dot_product_batch (Ndarray2 [v] (shape1 m)) m = Returned t
    /\ get2 t 0 i = Returned d
    /\ r !! i = Some (fdiv d (fmul (norm v) (norm row))).
Proof.
  intros Hwf Hs Hlen Hv Hrow Hgt.
  destruct (int_sized_fits _ Hs) as [Hfit0 Hfit1].
  rewrite (cdef_user_similarity_agrees _ _ Hs).
  rewrite cdef_dot_product_batch_agrees; [by apply similarity_from_batch| |done].
  apply andb_true_intro. split; [reflexivity|exact Hfit1].
Qed.

End CompiledLawful.

(** ** Binary64, on the routines as compiled *)

Section CompiledBinary64.

(** C4, as amended.  In binary64, for a table with fewer than 2^31 rows
    and columns and a reference vector of matching length,
    [compute_user_similarity_matrix] returns and never divides by zero:
    when the norm of the reference vector compares equal to zero the result
    is U zeros; when row i has zero norm, element i is 0; an element is
    either that initial 0 or the quotient
    [dot / (norm_user * norm_other)], taken only with [norm_user] nonzero
    (positive whenever it is a number), [norm_other] positive and their
    product nonzero; and a returned element is NaN only if the norm of the
    reference vector is NaN or the dot product of the vector with that row
    is not finite. *)
Theorem C4_division_guarded (m : ndarray2 float) (v : list float) :
  wf m = true -> int_sized m = true -> length v = shape1 m ->
  exists r,
    Cdef.compute_user_similarity_matrix m v = Returned r
    /\ length r = shape0 m
    /\ (feqb (norm v) fzero = true -> r = zeros1 (shape0 m))
    /\ forall i row,
         rows m !! i = Some row ->
         (feqb (norm row) fzero = true -> r !! i = Some fzero)
         /\ (r !! i = Some fzero
             \/ (feqb (norm v) fzero = false
                 /\ (feqb (norm v) (norm v) = true -> fgtb (norm v) fzero = true)
                 /\ fgtb (norm row) fzero = true
                 /\ feqb (fmul (norm v) (norm row)) fzero = false
                 /\ r !! i = Some (fdiv (dot v row) (fmul (norm v) (norm row)))))
         /\ (forall q, r !! i = Some q -> PrimFloat.is_nan q = true ->
               PrimFloat.is_nan (norm v) = true
               \/ PrimFloat.is_finite (dot v row) = false).
Proof.
  intros Hwf Hs Hlen. rewrite (cdef_user_similarity_agrees _ _ Hs).
  destruct (division_guarded m v Hwf Hlen) as (r & Hr & Hlr & Hz & Hrows).
  exists r. split; [done|]. split; [done|]. split; [done|].
  intros i row Hrow. destruct (Hrows i row Hrow) as [Hzero Hcase].
  split; [done|]. split; [done|].
  intros q Hq Hnan. destruct Hcase as [H0|(Hv & _ & Hgt & _ & Hquot)].
  - rewrite H0 in Hq. injection Hq as <-. discriminate Hnan.
  - rewrite Hquot in Hq. injection Hq as <-.
    apply (float_quotient_nan (dot v row) (dot v v) (dot row row)); done.
Qed.

(** X6.  Binary64, table below 2^31 rows and columns: a NaN anywhere in
    row i of the table is masked, the returned element i being 0 whatever
    the reference vector: the row norm is NaN, and [norm_other > 0.0] is
    false for a NaN. *)
Theorem X6_nan_row_gives_zero (m : ndarray2 float) (v : list float)
    (i : nat) (row : list float) (x : float) :
  wf m = true -> int_sized m = true -> length v = shape1 m ->
  rows m !! i = Some row -> x ∈ row -> PrimFloat.is_nan x = true ->
  exists r,
    Cdef.compute_user_similarity_matrix m v = Returned r
    /\ r !! i = Some 0%float.
Proof.
  intros Hwf Hs. rewrite (cdef_user_similarity_agrees _ _ Hs).
  by apply nan_row_gives_zero.
Qed.

(** X7.  Binary64, table below 2^31 rows and columns: a NaN anywhere in the
    reference vector is not masked.  Its norm is NaN, which does not
    compare equal to zero, so the early return is not taken and every row
    of positive norm gets a NaN. *)
Theorem X7_nan_reference_gives_nan (m : ndarray2 float) (v : list float)
    (i : nat) (row : list float) (x : float) :
  wf m = true -> int_sized m = true -> length v = shape1 m ->
  x ∈ v -> PrimFloat.is_nan x = true ->
  rows m !! i = Some row -> fgtb (norm row) fzero = true ->
  exists r q,
    Cdef.compute_user_similarity_matrix m v = Returned r
    /\ r !! i = Some q /\ PrimFloat.is_nan q = true.
Proof.
  intros Hwf Hs. rewrite (cdef_user_similarity_agrees _ _ Hs).
  by apply nan_reference_gives_nan.
Qed.

(** X8.  Binary64, table below 2^31 rows and columns: a reference vector
    every square of which is zero, be it all zeros or nonzero entries so
    small that their squares underflow, has a computed norm of zero, and
    the routine returns U zeros. *)
Theorem X8_underflowing_reference_gives_zeros (m : ndarray2 float) (v : list float) :
  wf m = true -> int_sized m = true -> length v = shape1 m ->
  (forall x, x ∈ v -> PrimFloat.eqb (PrimFloat.mul x x) 0 = true) ->
  Cdef.compute_user_similarity_matrix m v = Returned (zeros1 (shape0 m)).
Proof.
  intros Hwf Hs. rewrite (cdef_user_similarity_agrees _ _ Hs).
  by apply underflowing_reference_gives_zeros.
Qed.

(** X9.  Binary64, table below 2^31 rows and columns: a table row every
    square of which is zero (all zeros, or entries whose squares underflow)
    gets similarity 0, whatever the reference vector. *)
Theorem X9_underflowing_row_gives_zero (m : ndarray2 float) (v : list float)
    (i : nat) (row : list float) :
  wf m = true -> int_sized m = true -> length v = shape1 m ->
  rows m !! i = Some row ->
  (forall x, x ∈ row -> PrimFloat.eqb (PrimFloat.mul x x) 0 = true) ->
  exists r,
    Cdef.compute_user_similarity_matrix m v = Returned r
    /\ r !! i = Some 0%float.
Proof.
  intros Hwf Hs. rewrite (cdef_user_similarity_agrees _ _ Hs).
  by apply underflowing_row_gives_zero.
Qed.

End CompiledBinary64.

(** ** Runs against the original wording of C1, C3, C4, C8, C9 and C10 *)

Lemma rows_2_31_value : Z.of_nat MoreExamples.rows_2_31 = (2 ^ 31)%Z.
Proof. unfold MoreExamples.rows_2_31. by apply Z2Nat.id. Qed.


Lemma empty_table_2_31_rows :
  Z.of_nat (shape0 MoreExamples.empty_table_2_31) = (2 ^ 31)%Z.
Proof.
  unfold shape0, MoreExamples.empty_table_2_31. cbn [rows].
  rewrite length_replicate. apply rows_2_31_value.
Qed.


Lemma unit_table_2_31_rows :
  Z.of_nat (shape0 MoreExamples.unit_table_2_31) = (2 ^ 31)%Z.
Proof.
  unfold shape0, MoreExamples.unit_table_2_31. cbn [rows].
  rewrite length_replicate. apply rows_2_31_value.
Qed.

(** C1 as stated fails twice.  A row holding a NaN has a norm that is not
    zero, yet its element is 0 and not the quotient, which is NaN.  And a
    table of 2^31 rows of one column, with a reference vector of norm 1, is
    refused with [ValueError]: the row count does not fit the C [int] it is
    stored in. *)
Lemma C1_counterexample :
  (let m := MoreExamples.nan_table in
   let v := Examples.reference in
   let row := [1; nan]%float in
   wf m = true /\ length v = shape1 m
   /\ feqb (norm v) fzero = false
   /\ rows m !! 0 = Some row
   /\ feqb (norm row) fzero = false
   /\ (exists r, Cdef.compute_user_similarity_matrix m v = Returned r
                 /\ r !! 0 = Some 0%float)
   /\ PrimFloat.is_nan (fdiv (dot v row) (fmul (norm v) (norm row))) = true)
  /\ (let m := MoreExamples.unit_table_2_31 in
      let v := [1%float] in
      wf m = true /\ length v = shape1 m
      /\ feqb (norm v) fzero = false
      /\ Cdef.compute_user_similarity_matrix m v = ValueError).
Proof.
  split.
  - repeat split; try reflexivity.
    eexists. split; vm_compute; reflexivity.
  - split; [by apply wf_constant_rows|]. split; [reflexivity|].
    split; [reflexivity|].
    apply cdef_user_similarity_2_31_rows, unit_table_2_31_rows.
Qed.


(** C4 as stated fails twice.  On the finite 1 x 1 input [[2^600]] with
    reference vector [2^600] both squared norms overflow to infinity and
    the returned element is inf / inf, a NaN.  And on the table of 2^31
    rows without columns, with the empty reference vector (of norm zero),
    the call is refused with [ValueError] instead of returning zeros. *)
Lemma C4_counterexample :
  (let m := Ndarray2 [[Examples.huge]] 1 in
   let v := [Examples.huge] in
   wf m = true /\ length v = shape1 m
   /\ PrimFloat.is_finite Examples.huge = true
   /\ exists x,
        Cdef.compute_user_similarity_matrix m v = Returned [x]
        /\ PrimFloat.is_nan x = true)
  /\ (let m := MoreExamples.empty_table_2_31 in
      wf m = true /\ length (@nil float) = shape1 m
      /\ feqb (norm (@nil float)) fzero = true
      /\ Cdef.compute_user_similarity_matrix m [] = ValueError).
Proof.
  split.
  - repeat split. eexists. split; vm_compute; reflexivity.
  - split; [by apply wf_constant_rows|]. split; [reflexivity|].
    split; [reflexivity|].
    apply cdef_user_similarity_2_31_rows, empty_table_2_31_rows.
Qed.


(** C9 as stated fails twice.  Two product matrices of one column with the
    same row 0, against a liked matrix of two columns, are indexed past the
    end of row 0: neither call has a defined result, so there is no common
    result.  And a liked matrix of 2^31 rows is refused with
    [ValueError]. *)
Lemma C9_counterexample :
  (let liked := Examples.pair_row in
   let product1 := MoreExamples.narrow_product_5 in
   let product2 := MoreExamples.narrow_product_7 in
   wf liked = true /\ wf product1 = true /\ wf product2 = true
   /\ shape1 product1 = shape1 product2
   /\ rows product1 !! 0 = rows product2 !! 0
   /\ Cdef.compute_product_similarity liked product1 = OutOfBounds
   /\ Cdef.compute_product_similarity liked product2 = OutOfBounds
   /\ ~ exists r,
          Cdef.compute_product_similarity liked product1 = Returned r
          /\ Cdef.compute_product_similarity liked product2 = Returned r)
  /\ (let liked := MoreExamples.empty_table_2_31 in
      let product := MoreExamples.one_empty_row in
      wf liked = true /\ wf product = true
      /\ shape1 product = shape1 liked
      /\ Cdef.compute_product_similarity liked product = ValueError).
Proof.
  split.
  - repeat split; try reflexivity.
    intros (r & Hr & _). vm_compute in Hr. discriminate Hr.
  - split; [by apply wf_constant_rows|]. split; [reflexivity|].
    split; [reflexivity|].
    apply cdef_product_similarity_2_31_rows, empty_table_2_31_rows.
Qed.


(** ** The theorems on the compiled routines at concrete operands *)

Lemma C1_witness :
  wf Examples.users = true /\ int_sized Examples.users = true
  /\ length Examples.reference = shape1 Examples.users
  /\ feqb (norm Examples.reference) fzero = false
  /\ exists r,
       Cdef.compute_user_similarity_matrix Examples.users Examples.reference
         = Returned r
       /\ length r = shape0 Examples.users
       /\ forall i row,
            rows Examples.users !! i = Some row ->
            feqb (norm row) fzero = false -> feqb (norm row) (norm row) = true ->
            r !! i = Some (fdiv (dot Examples.reference row)
                             (fmul (norm Examples.reference) (norm row))).
Proof.
  split; [reflexivity|]. split; [reflexivity|]. split; [reflexivity|].
  split; [reflexivity|].
  apply (C1_user_similarity_is_cosine Examples.users Examples.reference);
    reflexivity.
Defined.


Lemma C4_witness :
  wf Examples.users = true /\ int_sized Examples.users = true
  /\ length Examples.reference = shape1 Examples.users
  /\ exists r,
       Cdef.compute_user_similarity_matrix Examples.users Examples.reference
         = Returned r
       /\ length r = shape0 Examples.users.
Proof.
  split; [reflexivity|]. split; [reflexivity|]. split; [reflexivity|].
  destruct (C4_division_guarded Examples.users Examples.reference)
    as (r & Hr & Hlen & _); [reflexivity|reflexivity|reflexivity|].
  exists r. by split.
Defined.


Lemma C9_witness :
  wf Examples.users = true /\ int_sized Examples.users = true
  /\ wf Examples.product_two = true /\ wf Examples.product_one = true
  /\ shape1 Examples.users <= shape1 Examples.product_two
  /\ shape1 Examples.users <= shape1 Examples.product_one
  /\ rows Examples.product_two !! 0 = Some Examples.reference
  /\ rows Examples.product_one !! 0 = Some Examples.reference
  /\ exists r,
       Cdef.compute_product_similarity Examples.users Examples.product_two
         = Returned r
       /\ Cdef.compute_product_similarity Examples.users Examples.product_one
         = Returned r
       /\ length r = shape0 Examples.users.
Proof.
  split; [reflexivity|]. split; [reflexivity|]. split; [reflexivity|].
  split; [reflexivity|]. split; [vm_compute; lia|]. split; [vm_compute; lia|].
  split; [reflexivity|]. split; [reflexivity|].
  apply (C9_product_similarity_reads_row_0 Examples.users Examples.product_two
           Examples.product_one Examples.reference);
    first [reflexivity | vm_compute; lia].
Defined.


Lemma X2_witness :
  exists r1 r2,
    Cdef.compute_user_similarity_matrix (Ndarray2 [[1; 2]]%float 2) Examples.reference
      = Returned r1
    /\ Cdef.compute_user_similarity_matrix (Ndarray2 [[0; 0]; [3; 4]]%float 2)
         Examples.reference = Returned r2
    /\ Cdef.compute_user_similarity_matrix
         (Ndarray2 ([[1; 2]] ++ [[0; 0]; [3; 4]])%float 2) Examples.reference
       = Returned (r1 ++ r2).
Proof.
  apply (X2_user_similarity_rows_concatenate
           [[1; 2]]%float [[0; 0]; [3; 4]]%float 2 Examples.reference);
    reflexivity.
Defined.



Lemma X5_witness :
  exists r r' x,
    Cdef.compute_user_similarity_matrix Examples.users [3; 4]%float = Returned r
    /\ Cdef.compute_user_similarity_matrix Examples.users [1; 2]%float = Returned r'
    /\ r !! 0 = Some x /\ r' !! 2 = Some x.
Proof.
  apply (@X5_similarity_symmetric float float64 float64_laws
           Examples.users 0 2 [1; 2]%float [3; 4]%float float_mul_comm);
    reflexivity.
Defined.

Lemma X6_witness :
  exists r,
    Cdef.compute_user_similarity_matrix MoreExamples.nan_table Examples.reference
      = Returned r
    /\ r !! 0 = Some 0%float.
Proof.
  apply (X6_nan_row_gives_zero MoreExamples.nan_table Examples.reference 0
           [1; nan]%float nan); try reflexivity.
  apply (list_elem_of_lookup_2 _ 1). reflexivity.
Defined.

Lemma X7_witness :
  exists r q,
    Cdef.compute_user_similarity_matrix Examples.users MoreExamples.nan_reference
      = Returned r
    /\ r !! 0 = Some q /\ PrimFloat.is_nan q = true.
Proof.
  apply (X7_nan_reference_gives_nan Examples.users MoreExamples.nan_reference 0
           [1; 2]%float nan); try reflexivity.
  apply (list_elem_of_lookup_2 _ 1). reflexivity.
Defined.

Lemma X8_witness :
  PrimFloat.eqb MoreExamples.faint 0 = false
  /\ Cdef.compute_user_similarity_matrix Examples.users MoreExamples.faint_reference
     = Returned (zeros1 (shape0 Examples.users)).
Proof.
  split; [reflexivity|].
  apply (X8_underflowing_reference_gives_zeros
           Examples.users MoreExamples.faint_reference); try reflexivity.
  intros x Hx%list_elem_of_In. simpl in Hx.
  destruct Hx as [<-|[<-|[]]]; reflexivity.
Defined.

Lemma X9_witness :
  exists r,
    Cdef.compute_user_similarity_matrix MoreExamples.faint_table Examples.reference
      = Returned r
    /\ r !! 0 = Some 0%float.
Proof.
  apply (X9_underflowing_row_gives_zero MoreExamples.faint_table Examples.reference
           0 [MoreExamples.faint; MoreExamples.faint]); try reflexivity.
  intros x Hx%list_elem_of_In. simpl in Hx.
  destruct Hx as [<-|[<-|[]]]; reflexivity.
Defined.


Lemma X13_witness :
  exists r t d,
    Cdef.compute_user_similarity_matrix Examples.users Examples.reference = Returned r
    /\ Cdef.compute_dot_product_batch
         (Ndarray2 [Examples.reference] (shape1 Examples.users)) Examples.users
       = Returned t
    /\ get2 t 0 2 = Returned d
    /\ r !! 2 = Some (fdiv d (fmul (norm Examples.reference) (norm [3; 4]%float))).
Proof.
  apply (X13_similarity_from_batch Examples.users Examples.reference 2 [3; 4]%float);
    reflexivity.
Defined.
